(** * SparseML: one-shot OBCQ pipeline driver and per-layer distillation

    A shallow embedding of
    - [src/sparseml/modifiers/obcq/pytorch.py]
      (class [SparseGPTModifierPyTorch] and its Llama / OPT children), and
    - [src/sparseml/pytorch/sparsification/distillation/modifier_per_layer.py]
      (class [PerLayerDistillationModifier] and its module-level helpers).

    Python objects that are mutated in place ([self], the hook dictionaries)
    are threaded through a small state-and-exception monad; exceptions carry
    the Python class that the source raises. *)

From Stdlib Require Import Floats Uint63.
From stdpp Require Import gmap strings list.

Local Open Scope string_scope.

(** ** Python exceptions and the state/exception monad *)

Inductive exn : Type :=
  | RuntimeError (msg : string)
  | ValueError (msg : string)
  | TypeError (msg : string)
  | AttributeError (msg : string)
  | KeyError (key : string)
  | IndexError (msg : string)
  | NotImplementedError.

Inductive result (A : Type) : Type :=
  | Ok (a : A)
  | Raise (e : exn).
Arguments Ok {A} a.
Arguments Raise {A} e.

Definition is_ok {A} (r : result A) : bool :=
  match r with Ok _ => true | Raise _ => false end.

(** A computation over a mutable store [S]: the store survives a raise, as a
    Python object keeps the assignments made before the exception. *)
Definition M (S A : Type) : Type := S -> result A * S.

Definition ret {S A} (a : A) : M S A := fun s => (Ok a, s).
Definition raise {S A} (e : exn) : M S A := fun s => (Raise e, s).
Definition bind {S A B} (c : M S A) (k : A -> M S B) : M S B :=
  fun s => match c s with
           | (Ok a, s') => k a s'
           | (Raise e, s') => (Raise e, s')
           end.
Definition lift {S A} (r : result A) : M S A := fun s => (r, s).

Declare Scope py_scope.
Delimit Scope py_scope with py.
Notation "'let!' x ':=' c 'in' k" := (bind c (fun x => k))
  (at level 10, x pattern, c at level 100, k at level 200) : py_scope.
Notation "c ;;; k" := (bind c (fun _ => k))
  (at level 100, right associativity) : py_scope.

(** Values that travel in keyword dictionaries; tensors, dataloaders and
    other library objects are opaque handles. *)
Inductive pyval : Type :=
  | PyNone
  | PyBool (b : bool)
  | PyInt (z : Z)
  | PyFloat (x : float)
  | PyStr (s : string)
  | PyObj (id : nat).

(** Python's [sub in s] on strings: [sub] occurs at some offset of [s]. *)
Fixpoint str_prefix (p s : string) : bool :=
  match p, s with
  | EmptyString, _ => true
  | String a p', String b s' => if Ascii.eqb a b then str_prefix p' s' else false
  | String _ _, EmptyString => false
  end.

Fixpoint str_in (sub s : string) : bool :=
  str_prefix sub s ||
  match s with
  | EmptyString => false
  | String _ s' => str_in sub s'
  end.

(** [f(k1=.., **kw)] raises [TypeError] when [kw] repeats an explicit keyword. *)
Definition call_kw {A} (explicit : list string) (kw : gmap string pyval)
    (f : gmap string pyval -> result A) : result A :=
  match List.find (fun k => bool_decide (is_Some (kw !! k))) explicit with
  | Some k => Raise (TypeError ("got multiple values for keyword argument '" ++ k ++ "'"))
  | None => f kw
  end.

(** ** The sequential OBCQ pipeline driver *)
Module OBCQ.

(** Opaque decoder layer of the wrapped network. *)
Inductive Layer : Type := DecoderLayer (id : nat).

(** The torch model as far as the driver looks into it: an opaque weight
    snapshot (changed by the compressors), the enabled flag of each attached
    calibration observer, and [config.use_cache]. *)
Record TorchModel : Type := {
  weights : nat;
  observers : list bool;
  use_cache : pyval;
}.

(** [sparseml.core.model.ModifiableModel]: wraps the torch model ([.model])
    and resolves layers by target ([get_layers], an ordered name-to-layer
    mapping). *)
Record ModifiableModel : Type := {
  mm_model : TorchModel;
  get_layers : pyval -> list (string * Layer);
}.

(** [model: Any = None]: the slot first holds the wrapper, then the torch
    model. *)
Inductive AnyModel : Type :=
  | NoModel
  | Modifiable (mm : ModifiableModel)
  | Torch (tm : TorchModel).

Record BottomCompressor : Type := {
  bottom_compress :
    string -> pyval -> pyval -> gmap string pyval ->
    result (AnyModel * gmap string pyval);
}.

Record HeadCompressor : Type := {
  head_compress :
    string -> gmap string pyval -> result (AnyModel * gmap string pyval);
}.

(** The [args] dictionary built for every layer. *)
Record CompressionArgs : Type := {
  arg_sparsity : pyval;
  arg_prunen : pyval;
  arg_prunem : pyval;
  arg_blocksize : pyval;
  arg_percdamp : pyval;
  arg_sequential_update : pyval;
  arg_quantize : pyval;
}.

(** Fields declared by the framework-independent base class
    [SparseGPTModifier]. *)
Record Config : Type := {
  sparsity : pyval;
  prunen : pyval;
  prunem : pyval;
  block_size : pyval;
  dampening_frac : pyval;
  sequential_update : pyval;
  quantize : pyval;
  compress_layers : pyval;
  target_ids : pyval;
  layer_prefix : pyval;
}.

Inductive Class : Type :=
  | SparseGPTModifierPyTorch
  | SparseLlamaModifierPyTorch
  | SparseOPTModifierPyTorch.

Record Modifier : Type := {
  cls : Class;
  cfg : Config;
  model : AnyModel;
  compressible_layers_ : option (list Layer);
  bottom_compressor_ : option BottomCompressor;
  head_compressor_ : option HeadCompressor;
  device_ : string;
  finalization_kwargs_ : option (gmap string pyval);
}.

(** A freshly constructed modifier: the class-level defaults. *)
Definition new_modifier (c : Class) (k : Config) : Modifier :=
  {| cls := c; cfg := k; model := NoModel; compressible_layers_ := None;
     bottom_compressor_ := None; head_compressor_ := None;
     device_ := "cuda:0"; finalization_kwargs_ := None |}.

Definition with_model (m : AnyModel) (self : Modifier) : Modifier :=
  {| cls := cls self; cfg := cfg self; model := m;
     compressible_layers_ := compressible_layers_ self;
     bottom_compressor_ := bottom_compressor_ self;
     head_compressor_ := head_compressor_ self;
     device_ := device_ self;
     finalization_kwargs_ := finalization_kwargs_ self |}.

Definition with_compressible_layers (l : list Layer) (self : Modifier) : Modifier :=
  {| cls := cls self; cfg := cfg self; model := model self;
     compressible_layers_ := Some l;
     bottom_compressor_ := bottom_compressor_ self;
     head_compressor_ := head_compressor_ self;
     device_ := device_ self;
     finalization_kwargs_ := finalization_kwargs_ self |}.

Definition with_bottom_compressor (b : BottomCompressor) (self : Modifier) : Modifier :=
  {| cls := cls self; cfg := cfg self; model := model self;
     compressible_layers_ := compressible_layers_ self;
     bottom_compressor_ := Some b;
     head_compressor_ := head_compressor_ self;
     device_ := device_ self;
     finalization_kwargs_ := finalization_kwargs_ self |}.

Definition with_head_compressor (h : option HeadCompressor) (self : Modifier) : Modifier :=
  {| cls := cls self; cfg := cfg self; model := model self;
     compressible_layers_ := compressible_layers_ self;
     bottom_compressor_ := bottom_compressor_ self;
     head_compressor_ := h;
     device_ := device_ self;
     finalization_kwargs_ := finalization_kwargs_ self |}.

Definition with_device (d : string) (self : Modifier) : Modifier :=
  {| cls := cls self; cfg := cfg self; model := model self;
     compressible_layers_ := compressible_layers_ self;
     bottom_compressor_ := bottom_compressor_ self;
     head_compressor_ := head_compressor_ self;
     device_ := d;
     finalization_kwargs_ := finalization_kwargs_ self |}.

Definition with_finalization_kwargs (k : gmap string pyval) (self : Modifier) : Modifier :=
  {| cls := cls self; cfg := cfg self; model := model self;
     compressible_layers_ := compressible_layers_ self;
     bottom_compressor_ := bottom_compressor_ self;
     head_compressor_ := head_compressor_ self;
     device_ := device_ self;
     finalization_kwargs_ := Some k |}.

(** What a run lets an observer see: the calls into the collaborators and
    the [_LOGGER.info] progress lines. *)
Inductive event : Type :=
  | BottomCompress (dev : string)
  | Compressing (idx num_layers : nat)
  | LayerCompress (idx : nat) (layer : Layer) (inputs : pyval)
  | LayerReturned (idx : nat) (layer_kwargs : gmap string pyval)
  | HeadCompress (dev : string).

(** The store of a run: [self] and the events so far. *)
Record Store : Type := { self : Modifier; trace : list event }.

Definition get_self : M Store Modifier := fun s => (Ok (self s), s).
Definition update_self (f : Modifier -> Modifier) : M Store unit :=
  fun s => (Ok tt, {| self := f (self s); trace := trace s |}).
Definition emit (e : event) : M Store unit :=
  fun s => (Ok tt, {| self := self s; trace := trace s ++ [e] |}).

Definition outputs_missing : string :=
  "The 'outputs' key is expected but not found from the return of the bottom compressor".

(** [dict.update]: the argument's entries win. *)
Definition dict_update (d upd : gmap string pyval) : gmap string pyval := upd ∪ d.

Section Driver.

(** Collaborators that live outside this file: the per-layer compressor, the
    two architecture-specific bottom compressors, and the CUDA probe. *)
Variable LayerCompressor_compress :
  AnyModel -> Layer -> nat -> pyval -> CompressionArgs ->
  string -> gmap string pyval -> result (AnyModel * gmap string pyval).
Variables LlamaBottomCompressor OPTBottomCompressor : AnyModel -> BottomCompressor.
Variable cuda_is_available : bool.

Local Open Scope py_scope.

Definition compressible_layers : M Store (list Layer) :=
  let! self := get_self in
  match model self with
  | Modifiable mm => ret (List.map snd (get_layers mm (compress_layers (cfg self))))
  | NoModel => raise (AttributeError "'NoneType' object has no attribute 'get_layers'")
  | Torch _ => raise (AttributeError "model object has no attribute 'get_layers'")
  end.

Definition bottom_compressor : M Store BottomCompressor :=
  let! self := get_self in
  match cls self with
  | SparseGPTModifierPyTorch => raise NotImplementedError
  | SparseLlamaModifierPyTorch => ret (LlamaBottomCompressor (model self))
  | SparseOPTModifierPyTorch => ret (OPTBottomCompressor (model self))
  end.

Definition head_compressor : M Store (option HeadCompressor) := ret None.

Definition _set_device (device : string) : M Store unit :=
  if str_in "cuda" device && negb cuda_is_available
  then update_self (with_device "cpu")
  else update_self (with_device device).

Definition initialize_obcq (mdl : ModifiableModel) (device : string) : M Store unit :=
  update_self (with_model (Modifiable mdl)) ;;;
  let! layers := compressible_layers in
  update_self (with_compressible_layers layers) ;;;
  let! self := get_self in
  match model self with
  | Modifiable mm => update_self (with_model (Torch (mm_model mm)))
  | _ => raise (AttributeError "model object has no attribute 'model'")
  end ;;;
  let! bc := bottom_compressor in
  update_self (with_bottom_compressor bc) ;;;
  let! hc := head_compressor in
  update_self (with_head_compressor hc) ;;;
  _set_device device.

Definition layer_args (k : Config) : CompressionArgs :=
  {| arg_sparsity := sparsity k; arg_prunen := prunen k; arg_prunem := prunem k;
     arg_blocksize := block_size k; arg_percdamp := dampening_frac k;
     arg_sequential_update := sequential_update k; arg_quantize := quantize k |}.

(** The body of [for idx, layer in enumerate(self.compressible_layers_)],
    from index [idx] on. *)
Fixpoint compress_layers_from (num_layers idx : nat) (layers : list Layer)
    (accum_kwargs : gmap string pyval) : M Store (gmap string pyval) :=
  match layers with
  | [] => ret accum_kwargs
  | layer :: rest =>
      match accum_kwargs !! "outputs" with
      | None => raise (RuntimeError outputs_missing)
      | Some inputs =>
          emit (Compressing idx num_layers) ;;;
          let! self := get_self in
          emit (LayerCompress idx layer inputs) ;;;
          let! (mdl, layer_kwargs) :=
            lift (call_kw ["dev"] accum_kwargs
                    (LayerCompressor_compress (model self) layer idx inputs
                       (layer_args (cfg self)) (device_ self))) in
          emit (LayerReturned idx layer_kwargs) ;;;
          update_self (with_model mdl) ;;;
          compress_layers_from num_layers (S idx) rest
            (dict_update accum_kwargs layer_kwargs)
      end
  end.

Definition apply_obcq (dataloader : pyval) : M Store (gmap string pyval) :=
  let accum_kwargs : gmap string pyval := {[ "dataloader" := dataloader ]} in
  let! self := get_self in
  let! bc := match bottom_compressor_ self with
        | Some bc => ret bc
        | None => raise (AttributeError "'NoneType' object has no attribute 'compress'")
        end in
  emit (BottomCompress (device_ self)) ;;;
  let! (mdl, extras) :=
    lift (call_kw ["dev"; "target_ids"; "layer_prefix"] accum_kwargs
            (bottom_compress bc (device_ self) (target_ids (cfg self))
               (layer_prefix (cfg self)))) in
  update_self (with_model mdl) ;;;
  let accum_kwargs := dict_update accum_kwargs extras in
  let! self := get_self in
  let! layers := match compressible_layers_ self with
            | Some l => ret l
            | None => raise (TypeError "object of type 'NoneType' has no len()")
            end in
  let! accum_kwargs := compress_layers_from (length layers) 0 layers accum_kwargs in
  let! self := get_self in
  match head_compressor_ self with
  | Some hc =>
      emit (HeadCompress (device_ self)) ;;;
      let! (mdl, extras) :=
        lift (call_kw ["dev"] accum_kwargs (head_compress hc (device_ self))) in
      update_self (with_model mdl) ;;;
      ret extras
  | None => ret extras
  end.

(** [state.model], [state.data.calib], [state.hardware.device]. *)
Record State : Type := {
  state_model : ModifiableModel;
  state_calib : pyval;
  state_device : string;
}.

Definition on_initialize (state : State) : M Store bool :=
  update_self (with_finalization_kwargs ∅) ;;;
  initialize_obcq (state_model state) (state_device state) ;;;
  let! extras := apply_obcq (state_calib state) in
  let! self := get_self in
  match finalization_kwargs_ self with
  | Some fk => update_self (with_finalization_kwargs (dict_update fk extras))
  | None => raise (AttributeError "'NoneType' object has no attribute 'update'")
  end ;;;
  ret true.

(** [model.apply(torch.quantization.disable_observer)]: every observer is
    switched off. *)
Definition disable_observers (tm : TorchModel) : TorchModel :=
  {| weights := weights tm;
     observers := List.map (fun _ => false) (observers tm);
     use_cache := use_cache tm |}.

Definition set_use_cache (v : pyval) (tm : TorchModel) : TorchModel :=
  {| weights := weights tm; observers := observers tm; use_cache := v |}.

Definition on_finalize : M Store bool :=
  let! self := get_self in
  match finalization_kwargs_ self with
  | None => raise (AttributeError "'NoneType' object has no attribute 'get'")
  | Some fk =>
      let use_cache := default (PyBool false) (fk !! "use_cache") in
      match model self with
      | Torch tm =>
          update_self (with_model (Torch (set_use_cache use_cache (disable_observers tm)))) ;;;
          ret true
      | NoModel => raise (AttributeError "'NoneType' object has no attribute 'apply'")
      | Modifiable _ => raise (AttributeError "model object has no attribute 'apply'")
      end
  end.

End Driver.

(** *** Views of a trace *)

(** The layer-compressor calls of a trace, in call order. *)
Fixpoint layer_calls (tr : list event) : list (nat * Layer) :=
  match tr with
  | [] => []
  | LayerCompress idx layer _ :: tr' => (idx, layer) :: layer_calls tr'
  | _ :: tr' => layer_calls tr'
  end.

(** Python's [enumerate(l, start=i)]. *)
Fixpoint enumerate_from {A} (i : nat) (l : list A) : list (nat * A) :=
  match l with
  | [] => []
  | x :: l' => (i, x) :: enumerate_from (S i) l'
  end.

(** A run of layer stages in which every stage is announced, called and
    returns under one index, and is fed [cur]: the ['outputs'] of the latest
    stage that returned that key. *)
Fixpoint chained (cur : pyval) (evs : list event) : Prop :=
  match evs with
  | [] => True
  | Compressing i _ :: LayerCompress j _ inputs :: LayerReturned k layer_kwargs :: evs' =>
      i = j /\ j = k /\ inputs = cur /\
      chained (default cur (layer_kwargs !! "outputs")) evs'
  | _ => False
  end.

(** The devices handed to the bottom and head compressors. *)
Fixpoint devices_used (tr : list event) : list string :=
  match tr with
  | [] => []
  | BottomCompress dev :: tr' | HeadCompress dev :: tr' => dev :: devices_used tr'
  | _ :: tr' => devices_used tr'
  end.

End OBCQ.

(** ** The per-layer distillation modifier *)
Module PerLayer.

Local Open Scope float_scope.

(** A torch tensor: its shape and its elements in row-major order. Elements
    are IEEE 754 binary64 numbers; torch's default is binary32, and nothing
    below depends on the width. *)
Record Tensor : Type := { shape : list nat; data : list float }.

Definition float_of_nat (n : nat) : float :=
  PrimFloat.of_uint63 (Uint63.of_Z (Z.of_nat n)).

(** Element-wise [a - b] for operands of one shape; operands of different
    shapes are rejected (broadcasting between different shapes is not part
    of this model). *)
Definition tensor_sub (a b : Tensor) : result Tensor :=
  if decide (shape a = shape b)
  then Ok {| shape := shape a; data := zip_with PrimFloat.sub (data a) (data b) |}
  else Raise (RuntimeError "The size of tensor a must match the size of tensor b").

(** [t ** 2]. *)
Definition tensor_pow2 (t : Tensor) : Tensor :=
  {| shape := shape t; data := List.map (fun x => x * x) (data t) |}.

(** [torch.mean(t)] over all elements: the sum, accumulated from the left,
    divided by the number of elements (an empty tensor gives NaN). *)
Definition torch_mean (t : Tensor) : float :=
  List.fold_left PrimFloat.add (data t) 0 / float_of_nat (length (data t)).

(** A float that is neither an infinity nor a NaN. *)
Definition finite (x : float) : bool :=
  match Prim2SF x with
  | S754_zero _ | S754_finite _ _ _ => true
  | S754_infinity _ | S754_nan => false
  end.

(** The statements in the loop body of [compute_distillation_loss] that
    turn one pair of captured outputs into its loss term. *)
Definition output_difference (normalize : bool)
    (student_module_output teacher_module_output : Tensor) : result float :=
  match tensor_sub student_module_output teacher_module_output with
  | Raise e => Raise e
  | Ok diff =>
      let output_difference := torch_mean (tensor_pow2 diff) in
      if normalize then
        let teacher_output_magnitude := torch_mean (tensor_pow2 teacher_module_output) in
        Ok (output_difference / teacher_output_magnitude)
      else Ok output_difference
  end.

(** *** Modules, insertion-ordered dictionaries and layer discovery *)

Inductive ModuleType : Type :=
  | Conv1d | Conv2d | Conv3d | Linear
  | OtherType (name : string).

Definition _DISTILLATION_TYPES : list ModuleType := [Conv1d; Conv2d; Conv3d; Linear].

Definition module_type_eqb (a b : ModuleType) : bool :=
  match a, b with
  | Conv1d, Conv1d | Conv2d, Conv2d | Conv3d, Conv3d | Linear, Linear => true
  | OtherType x, OtherType y => String.eqb x y
  | _, _ => false
  end.

(** [type(layer_module) in _DISTILLATION_TYPES]. *)
Definition is_distillation_type (ty : ModuleType) : bool :=
  existsb (module_type_eqb ty) _DISTILLATION_TYPES.

(** A torch module: its type and its [named_children()]. *)
#[warnings="-register-all"] Inductive TorchModule : Type :=
  | Mod (ty : ModuleType) (children : list (string * TorchModule)).

(** [d[k] = v] on a Python dict, which keeps insertion order. *)
Fixpoint dict_set {V} (k : string) (v : V) (d : list (string * V)) : list (string * V) :=
  match d with
  | [] => [(k, v)]
  | (k', v') :: d' =>
      if String.eqb k k' then (k, v) :: d' else (k', v') :: dict_set k v d'
  end.

Definition child_name (name layer_module : string) : string :=
  if String.eqb name "" then layer_module else name ++ "." ++ layer_module.

Fixpoint _find_layers_by_type (layer_module : TorchModule)
    (cached_layers : list (string * TorchModule)) (name : string)
    : list (string * TorchModule) :=
  match layer_module with
  | Mod ty children =>
      let cached_layers :=
        if is_distillation_type ty
        then dict_set name layer_module cached_layers else cached_layers in
      (fix each (cs : list (string * TorchModule)) cached_layers :=
         match cs with
         | [] => cached_layers
         | (n, child) :: cs' =>
             each cs' (_find_layers_by_type child cached_layers (child_name name n))
         end) children cached_layers
  end.

Fixpoint _find_layers_by_name (layer_module : TorchModule) (layer_names : list string)
    (cached_layers : list (string * TorchModule)) (name : string)
    : list (string * TorchModule) :=
  match layer_module with
  | Mod ty children =>
      let cached_layers :=
        if bool_decide (name ∈ layer_names)
        then dict_set name layer_module cached_layers else cached_layers in
      (fix each (cs : list (string * TorchModule)) cached_layers :=
         match cs with
         | [] => cached_layers
         | (n, child) :: cs' =>
             each cs' (_find_layers_by_name child layer_names cached_layers (child_name name n))
         end) children cached_layers
  end.

(** *** Hooks and the dictionaries they share with the modifier *)

(** The closure returned by [_create_cache_output_hook]: the layer name and
    references to the two dictionaries it writes. *)
Record Hook : Type := {
  hook_layer_name : string;
  hook_outputs : nat;
  hook_outputs_shape : nat;
}.

Definition _create_cache_output_hook (layer_name : string) (outputs outputs_shape : nat) : Hook :=
  {| hook_layer_name := layer_name; hook_outputs := outputs;
     hook_outputs_shape := outputs_shape |}.

Inductive Side : Type := Student | Teacher.

Definition side_eqb (a b : Side) : bool :=
  match a, b with
  | Student, Student | Teacher, Teacher => true
  | _, _ => false
  end.

(** A registered forward hook: the module it hangs on (which model, which
    dotted path) and the closure. *)
Record Registration : Type := {
  reg_side : Side;
  reg_path : string;
  reg_hook : Hook;
}.

(** Mutable objects outside [self]: the dictionaries of captured outputs and
    of captured shapes (by reference), and the live forward hooks by handle
    id, in registration order. *)
Record World : Type := {
  output_dicts : gmap nat (gmap string Tensor);
  shape_dicts : gmap nat (gmap string (list nat));
  forward_hooks : list (nat * Registration);
  next_id : nat;
}.

Definition empty_world : World :=
  {| output_dicts := ∅; shape_dicts := ∅; forward_hooks := []; next_id := 0 |}.

(** The body of [forward_hook_fn] on the two dictionaries it closes over. *)
Definition forward_hook_fn (layer_name : string) (out : Tensor)
    (dicts : gmap string Tensor * gmap string (list nat))
    : gmap string Tensor * gmap string (list nat) :=
  let (outputs, outputs_shape) := dicts in
  let outputs := <[ layer_name := out ]> outputs in
  let outputs_shape :=
    match outputs_shape !! layer_name with
    | None => <[ layer_name := shape out ]> outputs_shape
    | Some _ => outputs_shape
    end in
  (outputs, outputs_shape).

(** Calling the hook closure [h] with a layer output. *)
Definition run_hook (h : Hook) (out : Tensor) (w : World) : World :=
  let dicts := (default ∅ (output_dicts w !! hook_outputs h),
                default ∅ (shape_dicts w !! hook_outputs_shape h)) in
  let (outputs, outputs_shape) := forward_hook_fn (hook_layer_name h) out dicts in
  {| output_dicts := <[ hook_outputs h := outputs ]> (output_dicts w);
     shape_dicts := <[ hook_outputs_shape h := outputs_shape ]> (shape_dicts w);
     forward_hooks := forward_hooks w;
     next_id := next_id w |}.

(** One forward call of the module at [path] of model [side] producing
    [out]: torch calls every hook registered on that module, oldest first. *)
Definition forward (side : Side) (path : string) (out : Tensor) (w : World) : World :=
  List.fold_left
    (fun w (r : nat * Registration) =>
       if side_eqb (reg_side (snd r)) side && String.eqb (reg_path (snd r)) path
       then run_hook (reg_hook (snd r)) out w else w)
    (forward_hooks w) w.

(** What a dictionary reference currently holds under [key]. *)
Definition cached_output (w : World) (r : nat) (key : string) : option Tensor :=
  match output_dicts w !! r with
  | Some d => d !! key
  | None => None
  end.

Definition cached_shape (w : World) (r : nat) (key : string) : option (list nat) :=
  match shape_dicts w !! r with
  | Some d => d !! key
  | None => None
  end.

(** The same hook called once per element of [outs], in order. *)
Definition run_hook_each (h : Hook) (outs : list Tensor) (w : World) : World :=
  List.fold_left (fun w out => run_hook h out w) outs w.

(** *** The modifier object *)

(** [distillation_teacher: Union[Module, str]]. *)
Inductive teacher_arg : Type :=
  | TeacherModule (m : TorchModule)
  | TeacherStr (s : string).

Section Modifier.

(** State owned by the base classes ([BaseDistillationModifier] and above),
    which are not part of this file. *)
Context {BaseState : Type}.

Record Modifier : Type := {
  base : BaseState;
  _gain : float;
  _normalize : bool;
  _student_names : option (list string);
  _teacher_names : option (list string);
  _project_features : bool;
  _project_from : string;
  _cached_student_output : option nat;
  _cached_teacher_output : option nat;
  _student_handles : option (list nat);
  _teacher_handles : option (list nat);
  _projection : option (list nat);
  _student_output_shapes : option nat;
  _teacher_output_shapes : option nat;
  _teacher : option TorchModule;
}.

Definition __init__ (b : BaseState) (gain : float) (normalize : bool)
    (student_names teacher_names : option (list string))
    (project_features : bool) (project_from : string) : Modifier :=
  {| base := b; _gain := gain; _normalize := normalize;
     _student_names := student_names; _teacher_names := teacher_names;
     _project_features := project_features; _project_from := project_from;
     _cached_student_output := None; _cached_teacher_output := None;
     _student_handles := None; _teacher_handles := None;
     _projection := None;
     _student_output_shapes := None; _teacher_output_shapes := None;
     _teacher := None |}.

(** The [ModifierProp] getters. *)
Definition gain (self : Modifier) : float := _gain self.
Definition normalize (self : Modifier) : bool := _normalize self.
Definition student_names (self : Modifier) : option (list string) := _student_names self.
Definition teacher_names (self : Modifier) : option (list string) :=
  match _teacher_names self with
  | Some names => Some names
  | None =>
      match student_names self with
      | Some names => Some names
      | None => None
      end
  end.
Definition project_features (self : Modifier) : bool := _project_features self.
Definition project_from (self : Modifier) : string := _project_from self.

Definition with_base (b : BaseState) (self : Modifier) : Modifier :=
  {| base := b; _gain := _gain self; _normalize := _normalize self;
     _student_names := _student_names self; _teacher_names := _teacher_names self;
     _project_features := _project_features self; _project_from := _project_from self;
     _cached_student_output := _cached_student_output self;
     _cached_teacher_output := _cached_teacher_output self;
     _student_handles := _student_handles self; _teacher_handles := _teacher_handles self;
     _projection := _projection self;
     _student_output_shapes := _student_output_shapes self;
     _teacher_output_shapes := _teacher_output_shapes self;
     _teacher := _teacher self |}.

Definition with_names (sn tn : option (list string)) (self : Modifier) : Modifier :=
  {| base := base self; _gain := _gain self; _normalize := _normalize self;
     _student_names := sn; _teacher_names := tn;
     _project_features := _project_features self; _project_from := _project_from self;
     _cached_student_output := _cached_student_output self;
     _cached_teacher_output := _cached_teacher_output self;
     _student_handles := _student_handles self; _teacher_handles := _teacher_handles self;
     _projection := _projection self;
     _student_output_shapes := _student_output_shapes self;
     _teacher_output_shapes := _teacher_output_shapes self;
     _teacher := _teacher self |}.

Definition with_cached_outputs (so to : option nat) (self : Modifier) : Modifier :=
  {| base := base self; _gain := _gain self; _normalize := _normalize self;
     _student_names := _student_names self; _teacher_names := _teacher_names self;
     _project_features := _project_features self; _project_from := _project_from self;
     _cached_student_output := so; _cached_teacher_output := to;
     _student_handles := _student_handles self; _teacher_handles := _teacher_handles self;
     _projection := _projection self;
     _student_output_shapes := _student_output_shapes self;
     _teacher_output_shapes := _teacher_output_shapes self;
     _teacher := _teacher self |}.

Definition with_output_shapes (ss ts : option nat) (self : Modifier) : Modifier :=
  {| base := base self; _gain := _gain self; _normalize := _normalize self;
     _student_names := _student_names self; _teacher_names := _teacher_names self;
     _project_features := _project_features self; _project_from := _project_from self;
     _cached_student_output := _cached_student_output self;
     _cached_teacher_output := _cached_teacher_output self;
     _student_handles := _student_handles self; _teacher_handles := _teacher_handles self;
     _projection := _projection self;
     _student_output_shapes := ss; _teacher_output_shapes := ts;
     _teacher := _teacher self |}.

Definition with_handles (sh th : option (list nat)) (self : Modifier) : Modifier :=
  {| base := base self; _gain := _gain self; _normalize := _normalize self;
     _student_names := _student_names self; _teacher_names := _teacher_names self;
     _project_features := _project_features self; _project_from := _project_from self;
     _cached_student_output := _cached_student_output self;
     _cached_teacher_output := _cached_teacher_output self;
     _student_handles := sh; _teacher_handles := th;
     _projection := _projection self;
     _student_output_shapes := _student_output_shapes self;
     _teacher_output_shapes := _teacher_output_shapes self;
     _teacher := _teacher self |}.

Definition with_teacher (t : option TorchModule) (self : Modifier) : Modifier :=
  {| base := base self; _gain := _gain self; _normalize := _normalize self;
     _student_names := _student_names self; _teacher_names := _teacher_names self;
     _project_features := _project_features self; _project_from := _project_from self;
     _cached_student_output := _cached_student_output self;
     _cached_teacher_output := _cached_teacher_output self;
     _student_handles := _student_handles self; _teacher_handles := _teacher_handles self;
     _projection := _projection self;
     _student_output_shapes := _student_output_shapes self;
     _teacher_output_shapes := _teacher_output_shapes self;
     _teacher := t |}.

(** The store of the modifier's methods: [self] and the objects it shares
    with the hooks. *)
Record Store : Type := { self : Modifier; world : World }.

Definition get_self : M Store Modifier := fun s => (Ok (self s), s).
Definition update_self (f : Modifier -> Modifier) : M Store unit :=
  fun s => (Ok tt, {| self := f (self s); world := world s |}).
Definition get_world : M Store World := fun s => (Ok (world s), s).
Definition update_world (f : World -> World) : M Store unit :=
  fun s => (Ok tt, {| self := self s; world := f (world s) |}).

(** A fresh [{}] for captured outputs, and one for captured shapes. *)
Definition new_outputs_dict : M Store nat :=
  fun s =>
    let w := world s in
    (Ok (next_id w),
     {| self := self s;
        world := {| output_dicts := <[ next_id w := ∅ ]> (output_dicts w);
                    shape_dicts := shape_dicts w;
                    forward_hooks := forward_hooks w;
                    next_id := S (next_id w) |} |}).

Definition new_shapes_dict : M Store nat :=
  fun s =>
    let w := world s in
    (Ok (next_id w),
     {| self := self s;
        world := {| output_dicts := output_dicts w;
                    shape_dicts := <[ next_id w := ∅ ]> (shape_dicts w);
                    forward_hooks := forward_hooks w;
                    next_id := S (next_id w) |} |}).

(** [module.register_forward_hook(hook)]: returns the removable handle. *)
Definition register_forward_hook (side : Side) (path : string) (h : Hook) : M Store nat :=
  fun s =>
    let w := world s in
    (Ok (next_id w),
     {| self := self s;
        world := {| output_dicts := output_dicts w;
                    shape_dicts := shape_dicts w;
                    forward_hooks :=
                      forward_hooks w ++
                      [(next_id w, {| reg_side := side; reg_path := path; reg_hook := h |})];
                    next_id := S (next_id w) |} |}).

(** [handle.remove()]: no effect when the hook is already gone. *)
Definition remove_hook (handle : nat) (w : World) : World :=
  {| output_dicts := output_dicts w;
     shape_dicts := shape_dicts w;
     forward_hooks :=
       List.filter (fun r : nat * Registration => negb (Nat.eqb (fst r) handle))
         (forward_hooks w);
     next_id := next_id w |}.

(** What the absent base classes contribute: their [initialize] and
    [finalize] on their own state, and whether they expose the handle lists
    under the public names [student_handles] / [teacher_handles], which
    [finalize] reads and this class never assigns. *)
Variable super_initialize : BaseState -> TorchModule -> teacher_arg -> result BaseState.
Variable super_finalize : BaseState -> option TorchModule -> bool -> result BaseState.
Variable public_handles : bool.

(** Projection layers ([torch.nn.Linear] / [torch.nn.Conv2d] with fresh
    weights) are opaque handles; building and applying them is outside this
    file's model of tensors. *)
Variable _initialize_projection : M Store unit.
Variable apply_projection : nat -> Tensor -> result Tensor.

Local Open Scope py_scope.

Definition unrecognized_teacher (distillation_teacher : string) : string :=
  ("unrecognized value for distillation_modifier given of " ++ distillation_teacher
   ++ ". To disable set to 'disable' and for self attention set to 'self'")%string.

(** [self._student_handles.append(h)]. *)
Definition append_student_handle (h : nat) : M Store unit :=
  let! self := get_self in
  match _student_handles self with
  | Some hs => update_self (with_handles (Some (hs ++ [h])%list) (_teacher_handles self))
  | None => raise (AttributeError "'NoneType' object has no attribute 'append'")
  end.

(** The two registration loops of [initialize]; both append to
    [_student_handles]. *)
Fixpoint register_hooks (side : Side) (layer_names : list string)
    (outputs outputs_shape : nat) : M Store unit :=
  match layer_names with
  | [] => ret tt
  | layer_name :: rest =>
      let! h := register_forward_hook side layer_name
                  (_create_cache_output_hook layer_name outputs outputs_shape) in
      append_student_handle h ;;;
      register_hooks side rest outputs outputs_shape
  end.

Definition initialize (module : TorchModule) (distillation_teacher : teacher_arg)
    : M Store unit :=
  let! self := get_self in
  let! b := lift (super_initialize (base self) module distillation_teacher) in
  update_self (with_base b) ;;;
  match distillation_teacher with
  | TeacherModule teacher =>
      let! so := new_outputs_dict in
      let! to := new_outputs_dict in
      let! ss := new_shapes_dict in
      let! ts := new_shapes_dict in
      update_self (with_cached_outputs (Some so) (Some to)) ;;;
      update_self (with_output_shapes (Some ss) (Some ts)) ;;;
      let! self := get_self in
      let! (cached_student_layers, cached_teacher_layers) :=
        match student_names self with
        | None =>
            let cs := _find_layers_by_type module [] "" in
            let ct := _find_layers_by_type teacher [] "" in
            update_self (with_names (Some (List.map fst cs)) (Some (List.map fst ct))) ;;;
            ret (cs, ct)
        | Some names =>
            match teacher_names self with
            | Some tnames =>
                ret (_find_layers_by_name module names [] "",
                     _find_layers_by_name teacher tnames [] "")
            | None => raise (TypeError "argument of type 'NoneType' is not iterable")
            end
        end in
      update_self (with_handles (Some []) (Some [])) ;;;
      register_hooks Student (List.map fst cached_student_layers) so ss ;;;
      register_hooks Teacher (List.map fst cached_teacher_layers) to ts ;;;
      update_self (with_teacher (Some teacher))
  | TeacherStr s => raise (ValueError (unrecognized_teacher s))
  end.

(** [self.student_handles] and [self.teacher_handles], as [finalize] spells
    them. *)
Definition student_handles : M Store (option (list nat)) :=
  let! self := get_self in
  if public_handles then ret (_student_handles self)
  else raise (AttributeError
    "'PerLayerDistillationModifier' object has no attribute 'student_handles'").

Definition teacher_handles : M Store (option (list nat)) :=
  let! self := get_self in
  if public_handles then ret (_teacher_handles self)
  else raise (AttributeError
    "'PerLayerDistillationModifier' object has no attribute 'teacher_handles'").

(** [for handle in handles: handle.remove()]. *)
Definition remove_all (handles : option (list nat)) : M Store unit :=
  match handles with
  | None => raise (TypeError "'NoneType' object is not iterable")
  | Some hs => update_world (fun w => List.fold_left (fun w h => remove_hook h w) hs w)
  end.

Definition finalize (module : option TorchModule) (reset_loggers : bool) : M Store unit :=
  let! self := get_self in
  let! b := lift (super_finalize (base self) module reset_loggers) in
  update_self (with_base b) ;;;
  let! hs := student_handles in
  remove_all hs ;;;
  let! ht := teacher_handles in
  remove_all ht ;;;
  update_self (with_handles None None) ;;;
  update_self (with_cached_outputs None None).

(** [names[index]] on an attribute that may be [None]. *)
Definition subscript_names (names : option (list string)) (index : nat) : M Store string :=
  match names with
  | None => raise (TypeError "'NoneType' object is not subscriptable")
  | Some l =>
      match l !! index with
      | Some n => ret n
      | None => raise (IndexError "list index out of range")
      end
  end.

(** [cache[key]] on a dictionary of captured outputs that may be [None]. *)
Definition subscript_outputs (cache : option nat) (key : string) : M Store Tensor :=
  match cache with
  | None => raise (TypeError "'NoneType' object is not subscriptable")
  | Some r =>
      let! w := get_world in
      match default ∅ (output_dicts w !! r) !! key with
      | Some t => ret t
      | None => raise (KeyError key)
      end
  end.

(** [self._projection[index]]. *)
Definition subscript_projection (projection : option (list nat)) (index : nat) : M Store nat :=
  match projection with
  | None => raise (TypeError "'NoneType' object is not subscriptable")
  | Some l =>
      match l !! index with
      | Some p => ret p
      | None => raise (IndexError "list index out of range")
      end
  end.

(** One iteration of the loop of [compute_distillation_loss]. *)
Definition distillation_step (index : nat) (distillation_loss : float) : M Store float :=
  let! self := get_self in
  let! sname := subscript_names (student_names self) index in
  let! student_module_output := subscript_outputs (_cached_student_output self) sname in
  let! tname := subscript_names (teacher_names self) index in
  let! teacher_module_output := subscript_outputs (_cached_teacher_output self) tname in
  let! (student_module_output, teacher_module_output) :=
    if project_features self then
      let! p := subscript_projection (_projection self) index in
      if String.eqb (project_from self) "teacher" then
        let! t := lift (apply_projection p teacher_module_output) in
        ret (student_module_output, t)
      else
        let! s := lift (apply_projection p student_module_output) in
        ret (s, teacher_module_output)
    else ret (student_module_output, teacher_module_output) in
  let! output_difference :=
    lift (output_difference (normalize self) student_module_output teacher_module_output) in
  ret (distillation_loss + output_difference)%float.

Fixpoint distillation_loop (indices : list nat) (distillation_loss : float) : M Store float :=
  match indices with
  | [] => ret distillation_loss
  | index :: rest =>
      let! distillation_loss := distillation_step index distillation_loss in
      distillation_loop rest distillation_loss
  end.

Definition compute_distillation_loss : M Store float :=
  let! self := get_self in
  (if project_features self && bool_decide (_projection self = None)
   then _initialize_projection else ret tt) ;;;
  let! self := get_self in
  match student_names self with
  | None => raise (TypeError "object of type 'NoneType' has no len()")
  | Some names => distillation_loop (seq 0 (length names)) 0%float
  end.

Definition compute_total_loss (self : Modifier) (loss distillation_loss : float) : float :=
  (loss + gain self * distillation_loss)%float.

End Modifier.

Arguments Modifier : clear implicits.
Arguments Store : clear implicits.

(** *** Reference views used to state facts *)

Definition module_type (m : TorchModule) : ModuleType :=
  match m with Mod ty _ => ty end.

(** torch's [named_modules(prefix=name)]: the module and all its descendants
    with their dotted paths, depth first, parents before children. *)
Fixpoint named_modules (m : TorchModule) (name : string) : list (string * TorchModule) :=
  match m with
  | Mod _ children =>
      (name, m) ::
      (fix each (cs : list (string * TorchModule)) :=
         match cs with
         | [] => []
         | (n, child) :: cs' => (named_modules child (child_name name n) ++ each cs')%list
         end) children
  end.

(** [d[k] = v] for every [(k, v)] of [items], in order. *)
Definition dict_set_all {V} (items : list (string * V)) (d : list (string * V))
    : list (string * V) :=
  List.fold_left (fun d p => dict_set (fst p) (snd p) d) items d.

(** The registrations that hooking [names] on [side] appends, the first
    under handle [first]. *)
Definition hook_registrations (side : Side) (names : list string)
    (outputs outputs_shape first : nat) : list (nat * Registration) :=
  imap (fun i name =>
          ((first + i)%nat,
           {| reg_side := side; reg_path := name;
              reg_hook := _create_cache_output_hook name outputs outputs_shape |}))
       names.


(** The layers [initialize] hooks on the student and on the teacher: found
    by type when no student names are set, by name otherwise (the teacher by
    [teacher_names], which falls back on the student names). *)
Definition discovered_layers {BaseState} (self : Modifier BaseState)
    (module teacher : TorchModule)
    : list (string * TorchModule) * list (string * TorchModule) :=
  match student_names self with
  | None => (_find_layers_by_type module [] "", _find_layers_by_type teacher [] "")
  | Some names =>
      (_find_layers_by_name module names [] "",
       _find_layers_by_name teacher (default names (_teacher_names self)) [] "")
  end.

(** The store that [initialize] with a teacher module leaves when the base
    initialiser returned [b]: four fresh dictionaries, one hook per
    discovered layer, all handles in [_student_handles]. *)
Definition initialized {BaseState} (b : BaseState) (module teacher : TorchModule)
    (st : Store BaseState) : Store BaseState :=
  let n := next_id (world st) in
  let cs := List.map fst (fst (discovered_layers (self st) module teacher)) in
  let ct := List.map fst (snd (discovered_layers (self st) module teacher)) in
  {| self :=
       {| base := b;
          _gain := _gain (self st); _normalize := _normalize (self st);
          _student_names :=
            match student_names (self st) with
            | None => Some cs
            | Some names => Some names
            end;
          _teacher_names :=
            match student_names (self st) with
            | None => Some ct
            | Some _ => _teacher_names (self st)
            end;
          _project_features := _project_features (self st);
          _project_from := _project_from (self st);
          _cached_student_output := Some n;
          _cached_teacher_output := Some (S n);
          _student_handles :=
            Some (seq (S (S (S (S n)))) (length cs + length ct));
          _teacher_handles := Some [];
          _projection := _projection (self st);
          _student_output_shapes := Some (S (S n));
          _teacher_output_shapes := Some (S (S (S n)));
          _teacher := Some teacher |};
     world :=
       {| output_dicts := <[ S n := ∅ ]> (<[ n := ∅ ]> (output_dicts (world st)));
          shape_dicts :=
            <[ S (S (S n)) := ∅ ]> (<[ S (S n) := ∅ ]> (shape_dicts (world st)));
          forward_hooks :=
            (forward_hooks (world st) ++
             hook_registrations Student cs n (S (S n)) (S (S (S (S n)))) ++
             hook_registrations Teacher ct (S n) (S (S (S n)))
               (S (S (S (S n))) + length cs))%list;
          next_id := (S (S (S (S n))) + length cs + length ct)%nat |} |}.


End PerLayer.

(** ** Concrete runs used to exercise the definitions *)
Module Examples.

Definition cfg0 : OBCQ.Config :=
  {| OBCQ.sparsity := PyFloat 0.5; OBCQ.prunen := PyInt 0; OBCQ.prunem := PyInt 0;
     OBCQ.block_size := PyInt 128; OBCQ.dampening_frac := PyFloat 0.5;
     OBCQ.sequential_update := PyBool true; OBCQ.quantize := PyBool false;
     OBCQ.compress_layers := PyNone; OBCQ.target_ids := PyNone;
     OBCQ.layer_prefix := PyNone |}.

Definition tm0 : OBCQ.TorchModel :=
  {| OBCQ.weights := 0; OBCQ.observers := [true; true]; OBCQ.use_cache := PyBool true |}.

(** A wrapper whose selector finds three decoder layers, and one whose
    selector finds none. *)
Definition mm3 : OBCQ.ModifiableModel :=
  {| OBCQ.mm_model := tm0;
     OBCQ.get_layers := fun _ =>
       [("layers.0", OBCQ.DecoderLayer 0); ("layers.1", OBCQ.DecoderLayer 1);
        ("layers.2", OBCQ.DecoderLayer 2)] |}.

Definition mm_empty : OBCQ.ModifiableModel :=
  {| OBCQ.mm_model := tm0; OBCQ.get_layers := fun _ => [] |}.

(** A layer compressor that returns the layer's outputs under [outputs]. *)
Definition layer_ok (m : OBCQ.AnyModel) (l : OBCQ.Layer) (idx : nat) (inputs : pyval)
    (a : OBCQ.CompressionArgs) (dev : string) (kw : gmap string pyval)
    : result (OBCQ.AnyModel * gmap string pyval) :=
  Ok (m, {[ "outputs" := PyObj (S idx) ]}).

(** A bottom compressor whose extras carry [outputs] and [use_cache], and
    one whose extras omit [outputs]. *)
Definition bottom_ok (m : OBCQ.AnyModel) : OBCQ.BottomCompressor :=
  {| OBCQ.bottom_compress := fun _ _ _ _ =>
       Ok (m, <[ "use_cache" := PyBool true ]> {[ "outputs" := PyObj 0 ]}) |}.

Definition bottom_no_outputs (m : OBCQ.AnyModel) : OBCQ.BottomCompressor :=
  {| OBCQ.bottom_compress := fun _ _ _ _ => Ok (m, {[ "use_cache" := PyBool true ]}) |}.

Definition head_ok : OBCQ.HeadCompressor :=
  {| OBCQ.head_compress := fun _ kw => Ok (OBCQ.Torch tm0, {[ "head" := PyBool true ]}) |}.

Definition fresh (c : OBCQ.Class) : OBCQ.Store :=
  {| OBCQ.self := OBCQ.new_modifier c cfg0; OBCQ.trace := [] |}.

(** A Llama modifier after [initialize_obcq] on three layers, no CUDA. *)
Definition llama3 : OBCQ.Store :=
  snd (OBCQ.initialize_obcq bottom_ok bottom_ok false mm3 "cuda:0"
         (fresh OBCQ.SparseLlamaModifierPyTorch)).

Definition llama3_no_outputs : OBCQ.Store :=
  snd (OBCQ.initialize_obcq bottom_no_outputs bottom_no_outputs false mm3 "cuda:0"
         (fresh OBCQ.SparseLlamaModifierPyTorch)).

(** A Llama modifier whose selector matched nothing. *)
Definition llama_empty : OBCQ.Store :=
  snd (OBCQ.initialize_obcq bottom_ok bottom_ok false mm_empty "cuda:0"
         (fresh OBCQ.SparseLlamaModifierPyTorch)).

Definition with_head (s : OBCQ.Store) : OBCQ.Store :=
  {| OBCQ.self := OBCQ.with_head_compressor (Some head_ok) (OBCQ.self s);
     OBCQ.trace := OBCQ.trace s |}.

(** A modifier after [on_initialize]: finalization payload in place. *)
Definition llama3_run : OBCQ.Store :=
  snd (OBCQ.on_initialize layer_ok bottom_ok bottom_ok false
         {| OBCQ.state_model := mm3; OBCQ.state_calib := PyObj 7;
            OBCQ.state_device := "cuda:0" |}
         (fresh OBCQ.SparseLlamaModifierPyTorch)).

(** Student and teacher networks with one linear layer each. *)
Definition net : PerLayer.TorchModule :=
  PerLayer.Mod (PerLayer.OtherType "Net")
    [("act", PerLayer.Mod (PerLayer.OtherType "ReLU") []);
     ("fc", PerLayer.Mod PerLayer.Linear [])].

(** A network with nested children, for layer discovery. *)
Definition deep_net : PerLayer.TorchModule :=
  PerLayer.Mod (PerLayer.OtherType "Net")
    [("features",
      PerLayer.Mod (PerLayer.OtherType "Sequential")
        [("0", PerLayer.Mod PerLayer.Conv2d []);
         ("1", PerLayer.Mod (PerLayer.OtherType "ReLU") [])]);
     ("classifier", PerLayer.Mod PerLayer.Linear [])].

Definition super_initialize_ok (b : unit) (m : PerLayer.TorchModule)
    (t : PerLayer.teacher_arg) : result unit := Ok b.
Definition super_finalize_ok (b : unit) (m : option PerLayer.TorchModule)
    (r : bool) : result unit := Ok b.

Definition distill0 : PerLayer.Store unit :=
  {| PerLayer.self := PerLayer.__init__ tt 1%float true None None false "teacher";
     PerLayer.world := PerLayer.empty_world |}.

(** After [initialize(net, distillation_teacher=net)]. *)
Definition distill1 : PerLayer.Store unit :=
  snd (PerLayer.initialize super_initialize_ok net (PerLayer.TeacherModule net) distill0).

Definition vec (xs : list float) : PerLayer.Tensor :=
  {| PerLayer.shape := [length xs]; PerLayer.data := xs |}.

(** One forward pass of student and teacher: student [fc] gives [1.0],
    teacher [fc] gives [0.0]. *)
Definition distill2 : PerLayer.Store unit :=
  {| PerLayer.self := PerLayer.self distill1;
     PerLayer.world :=
       PerLayer.forward PerLayer.Teacher "fc" (vec [0%float])
         (PerLayer.forward PerLayer.Student "fc" (vec [1%float])
            (PerLayer.world distill1)) |}.

(** Two forward passes of the student with batches of different sizes. *)
Definition two_batches : PerLayer.World :=
  PerLayer.forward PerLayer.Student "fc" (vec [1%float; 2%float; 3%float])
    (PerLayer.forward PerLayer.Student "fc" (vec [1%float; 2%float])
       (PerLayer.world distill1)).

Definition no_projection_init : M (PerLayer.Store unit) unit :=
  raise NotImplementedError.
Definition no_projection (p : nat) (t : PerLayer.Tensor) : result PerLayer.Tensor := Ok t.

End Examples.

(** More concrete runs of the pipeline driver and of the distillation
    modifier. *)
Module Examples2.
Import Examples.

(** A bottom compressor whose extras carry a [dev] entry. *)
Definition bottom_with_dev (m : OBCQ.AnyModel) : OBCQ.BottomCompressor :=
  {| OBCQ.bottom_compress := fun _ _ _ _ =>
       Ok (m, <[ "dev" := PyStr "cuda:1" ]> {[ "outputs" := PyObj 0 ]}) |}.

Definition llama3_dev : OBCQ.Store :=
  snd (OBCQ.initialize_obcq bottom_with_dev bottom_with_dev false mm3 "cuda:0"
         (fresh OBCQ.SparseLlamaModifierPyTorch)).

Definition state3 : OBCQ.State :=
  {| OBCQ.state_model := mm3; OBCQ.state_calib := PyObj 7;
     OBCQ.state_device := "cuda:0" |}.

(** [on_initialize] with a bottom compressor that omits [outputs]: the run
    raises. *)
Definition llama3_failed : OBCQ.Store :=
  snd (OBCQ.on_initialize layer_ok bottom_no_outputs bottom_no_outputs false state3
         (fresh OBCQ.SparseLlamaModifierPyTorch)).


(** A student with two discovered layers against a teacher with one. *)
Definition mismatch1 : PerLayer.Store unit :=
  snd (PerLayer.initialize super_initialize_ok deep_net (PerLayer.TeacherModule net)
         distill0).

Definition mismatch2 : PerLayer.Store unit :=
  {| PerLayer.self := PerLayer.self mismatch1;
     PerLayer.world :=
       PerLayer.forward PerLayer.Teacher "fc" (vec [1%float])
         (PerLayer.forward PerLayer.Student "classifier" (vec [2%float])
            (PerLayer.forward PerLayer.Student "features.0" (vec [1%float])
               (PerLayer.world mismatch1))) |}.

End Examples2.

(** * Facts about the OBCQ pipeline driver *)
Module OBCQ_Facts.
Import OBCQ.

Lemma call_kw_fresh {A} (explicit : list string) (kw : gmap string pyval)
    (f : gmap string pyval -> result A) :
  Forall (fun k => kw !! k = None) explicit -> call_kw explicit kw f = f kw.
Proof.
  intros Hfresh. unfold call_kw.
  replace (List.find _ explicit) with (@None string); [reflexivity|].
  symmetry. induction Hfresh as [|k ks Hk _ IH]; simpl; [reflexivity|].
  rewrite Hk. rewrite bool_decide_eq_false_2; [exact IH|].
  intros [v Hv]. discriminate.
Qed.

Lemma call_kw_ok {A} (explicit : list string) (kw : gmap string pyval)
    (f : gmap string pyval -> result A) (a : A) :
  call_kw explicit kw f = Ok a -> f kw = Ok a.
Proof.
  unfold call_kw. destruct (List.find _ explicit); [discriminate|]. auto.
Qed.

Lemma call_kw_dataloader {A} (d : pyval) (f : gmap string pyval -> result A) :
  call_kw ["dev"; "target_ids"; "layer_prefix"] {[ "dataloader" := d ]} f
  = f {[ "dataloader" := d ]}.
Proof.
  apply call_kw_fresh. repeat constructor; by apply lookup_singleton_ne.
Qed.

Lemma disable_observers_idem (tm : TorchModel) (v : pyval) :
  set_use_cache v (disable_observers (set_use_cache v (disable_observers tm)))
  = set_use_cache v (disable_observers tm).
Proof.
  unfold set_use_cache, disable_observers; simpl.
  f_equal. rewrite List.map_map. reflexivity.
Qed.

(** [str_in] is substring containment. *)
Lemma str_prefix_spec (p s : string) :
  str_prefix p s = true <-> exists rest, s = p ++ rest.
Proof.
  revert s. induction p as [|a p IH]; intros s; simpl.
  - split; [intros _; by exists s | done].
  - destruct s as [|b s].
    + split; [done | intros [rest H]; discriminate].
    + destruct (Ascii.eqb a b) eqn:E.
      * apply Ascii.eqb_eq in E. subst b. rewrite IH.
        split; intros [rest H]; exists rest; [by rewrite H | by injection H].
      * apply Ascii.eqb_neq in E.
        split; [done | intros [rest H]; injection H; congruence].
Qed.

Lemma str_in_spec (sub s : string) :
  str_in sub s = true <-> exists pre post, s = pre ++ sub ++ post.
Proof.
  induction s as [|b s IH]; simpl.
  - rewrite orb_false_r, str_prefix_spec. split.
    + intros [rest H]. by exists "", rest.
    + intros [pre [post H]]. destruct pre; [by exists post | discriminate].
  - rewrite orb_true_iff, IH.
    split.
    + intros [H | [pre [post H]]].
      * apply (str_prefix_spec sub (String b s)) in H as [rest H].
        by exists "", rest.
      * exists (String b pre), post. simpl. by rewrite H.
    + intros [pre [post H]]. destruct pre as [|c pre].
      * left. apply (str_prefix_spec sub (String b s)). by exists post.
      * right. injection H as _ H. by exists pre, post.
Qed.

Ltac run_py :=
  unfold bind, ret, raise, lift, get_self, update_self, emit; simpl.

Section Driver.

Variable LayerCompressor_compress :
  AnyModel -> Layer -> nat -> pyval -> CompressionArgs ->
  string -> gmap string pyval -> result (AnyModel * gmap string pyval).
Variables LlamaBottomCompressor OPTBottomCompressor : AnyModel -> BottomCompressor.
Variable cuda_is_available : bool.

#[local] Abbreviation apply_obcq := (apply_obcq LayerCompressor_compress).
#[local] Abbreviation compress_layers_from := (compress_layers_from LayerCompressor_compress).
#[local] Abbreviation initialize_obcq :=
  (initialize_obcq LlamaBottomCompressor OPTBottomCompressor cuda_is_available).
#[local] Abbreviation _set_device := (_set_device cuda_is_available).

(** The layer loop only ever reassigns [self.model]. *)
Lemma compress_layers_from_frame n idx layers accum st r st' :
  compress_layers_from n idx layers accum st = (r, st') ->
  exists mdl, self st' = with_model mdl (self st).
Proof.
  revert idx accum st. induction layers as [|layer rest IH]; intros idx accum st; simpl.
  - intros [= <- <-]. exists (model (self st)). by destruct st as [[]].
  - destruct (accum !! "outputs") as [inputs|].
    + run_py. destruct (call_kw _ _ _) as [[mdl kw]|e]; simpl.
      * intros H. apply IH in H as [mdl' ->]. simpl. by exists mdl'.
      * intros [= <- <-]. simpl. exists (model (self st)). by destruct st as [[]].
    + intros [= <- <-]. exists (model (self st)). by destruct st as [[]].
Qed.

(** With a bottom compressor attached and the call returning, [apply_obcq]
    is the layer loop followed by the optional head stage. *)
Lemma apply_obcq_unfold st dataloader bc mdl extras layers :
  bottom_compressor_ (self st) = Some bc ->
  bottom_compress bc (device_ (self st)) (target_ids (cfg (self st)))
    (layer_prefix (cfg (self st))) {[ "dataloader" := dataloader ]} = Ok (mdl, extras) ->
  compressible_layers_ (self st) = Some layers ->
  apply_obcq dataloader st =
    bind (compress_layers_from (length layers) 0 layers
            (dict_update {[ "dataloader" := dataloader ]} extras))
      (fun accum_kwargs =>
         bind get_self (fun self =>
           match head_compressor_ self with
           | Some hc =>
               bind (emit (HeadCompress (device_ self))) (fun _ =>
               bind (lift (call_kw ["dev"] accum_kwargs (head_compress hc (device_ self))))
                 (fun x => let '(mdl, extras) := x in
                    bind (update_self (with_model mdl)) (fun _ => ret extras)))
           | None => ret extras
           end))
      {| self := with_model mdl (self st);
         trace := trace st ++ [BottomCompress (device_ (self st))] |}.
Proof.
  intros Hbc Hcall Hlayers. unfold OBCQ.apply_obcq.
  unfold bind at 1. unfold get_self at 1. simpl. rewrite Hbc.
  unfold bind at 1. unfold ret at 1. simpl.
  unfold bind at 1. unfold emit at 1. simpl.
  unfold bind at 1. unfold lift at 1. rewrite call_kw_dataloader, Hcall. simpl.
  unfold bind at 1. unfold update_self at 1. simpl.
  unfold bind at 1. unfold get_self at 1. simpl. rewrite Hlayers.
  unfold bind at 1. unfold ret at 1. simpl.
  reflexivity.
Qed.

(** The layer loop runs to its end when the accumulated state starts with
    ['outputs'] and every layer compressor returns without a ['dev'] entry. *)
Lemma compress_layers_from_completes n idx layers accum st :
  (forall m l i inputs a d kw,
     exists m' upd, LayerCompressor_compress m l i inputs a d kw = Ok (m', upd) /\
                    upd !! "dev" = None) ->
  is_Some (accum !! "outputs") ->
  accum !! "dev" = None ->
  exists accum' st',
    compress_layers_from n idx layers accum st = (Ok accum', st') /\
    is_Some (accum' !! "outputs") /\ accum' !! "dev" = None.
Proof.
  intros Hlayer. revert idx accum st.
  induction layers as [|layer rest IH]; intros idx accum st [inputs Hout] Hdev; simpl.
  - exists accum, st. by rewrite Hout.
  - rewrite Hout. run_py.
    rewrite call_kw_fresh by (by repeat constructor).
    destruct (Hlayer (model (self st)) layer idx inputs (layer_args (cfg (self st)))
                (device_ (self st)) accum) as (m' & upd & -> & Hupd).
    simpl. apply IH; unfold dict_update.
    + rewrite lookup_union. rewrite Hout. by destruct (upd !! "outputs").
    + apply lookup_union_None. by split.
Qed.

(** Without a head compressor, a run whose collaborators all return hands
    back the bottom compressor's extras. *)
Lemma apply_obcq_completes st dataloader bc mdl extras layers :
  (forall m l i inputs a d kw,
     exists m' upd, LayerCompressor_compress m l i inputs a d kw = Ok (m', upd) /\
                    upd !! "dev" = None) ->
  bottom_compressor_ (self st) = Some bc ->
  bottom_compress bc (device_ (self st)) (target_ids (cfg (self st)))
    (layer_prefix (cfg (self st))) {[ "dataloader" := dataloader ]} = Ok (mdl, extras) ->
  is_Some (extras !! "outputs") ->
  extras !! "dev" = None ->
  compressible_layers_ (self st) = Some layers ->
  head_compressor_ (self st) = None ->
  exists st', apply_obcq dataloader st = (Ok extras, st').
Proof.
  intros Hlayer Hbc Hcall [v Hout] Hdev Hlayers Hhead.
  rewrite (apply_obcq_unfold _ _ _ _ _ _ Hbc Hcall Hlayers).
  unfold bind at 1.
  edestruct (compress_layers_from_completes (length layers) 0 layers
               (dict_update {[ "dataloader" := dataloader ]} extras))
    as (accum' & st1 & Hloop & _); [exact Hlayer| | |].
  - unfold dict_update. rewrite lookup_union, Hout. by destruct (_ !! "outputs").
  - unfold dict_update. apply lookup_union_None. split; [done|].
    by apply lookup_singleton_ne.
  - rewrite Hloop. apply compress_layers_from_frame in Hloop as [mdl1 Hself].
    run_py. rewrite Hself. simpl. rewrite Hhead. eauto.
Qed.

(** C1. If the bottom compressor's extras lack the key ['outputs'] and there
    is at least one compressible layer, [apply_obcq] raises the error for
    the missing key (Python's [RuntimeError] carrying the "outputs key is
    expected" message) with only the bottom-compressor call on the trace: no
    layer has been announced or compressed. *)
Theorem missing_outputs_raises_before_any_layer
    st dataloader bc mdl extras layer rest :
  bottom_compressor_ (self st) = Some bc ->
  bottom_compress bc (device_ (self st)) (target_ids (cfg (self st)))
    (layer_prefix (cfg (self st))) {[ "dataloader" := dataloader ]} = Ok (mdl, extras) ->
  extras !! "outputs" = None ->
  compressible_layers_ (self st) = Some (layer :: rest) ->
  apply_obcq dataloader st =
    (Raise (RuntimeError outputs_missing),
     {| self := with_model mdl (self st);
        trace := trace st ++ [BottomCompress (device_ (self st))] |}).
Proof.
  intros Hbc Hcall Hout Hlayers.
  rewrite (apply_obcq_unfold _ _ _ _ _ _ Hbc Hcall Hlayers).
  unfold bind at 1. simpl. unfold dict_update.
  assert ((extras ∪ ({[ "dataloader" := dataloader ]} : gmap string pyval)) !! "outputs" = None)
    as ->; [|reflexivity].
  apply lookup_union_None. split; [exact Hout | by apply lookup_singleton_ne].
Qed.

(** C2 (amended). The payload returned by [apply_obcq] is the extras of the
    head compressor when one is configured, and otherwise the extras that
    the bottom compressor returned at the start of the run. *)
Theorem payload_is_head_or_bottom_extras st dataloader payload st' :
  apply_obcq dataloader st = (Ok payload, st') ->
  exists bc mdl0 extras0,
    bottom_compressor_ (self st) = Some bc /\
    bottom_compress bc (device_ (self st)) (target_ids (cfg (self st)))
      (layer_prefix (cfg (self st))) {[ "dataloader" := dataloader ]} = Ok (mdl0, extras0) /\
    match head_compressor_ (self st) with
    | None => payload = extras0
    | Some hc =>
        exists accum_kwargs,
          head_compress hc (device_ (self st)) accum_kwargs = Ok (model (self st'), payload)
    end.
Proof.
  intros Hrun.
  destruct (bottom_compressor_ (self st)) as [bc|] eqn:Hbc;
    [|unfold OBCQ.apply_obcq in Hrun; revert Hrun; run_py; rewrite Hbc; discriminate].
  destruct (bottom_compress bc (device_ (self st)) (target_ids (cfg (self st)))
              (layer_prefix (cfg (self st))) {[ "dataloader" := dataloader ]})
    as [[mdl0 extras0]|e] eqn:Hcall;
    [|unfold OBCQ.apply_obcq in Hrun; revert Hrun; run_py; rewrite Hbc; simpl;
      rewrite call_kw_dataloader, Hcall; discriminate].
  destruct (compressible_layers_ (self st)) as [layers|] eqn:Hlayers;
    [|unfold OBCQ.apply_obcq in Hrun; revert Hrun; run_py; rewrite Hbc; simpl;
      rewrite call_kw_dataloader, Hcall; simpl; rewrite Hlayers; discriminate].
  exists bc, mdl0, extras0. split; [done|]. split; [done|].
  rewrite (apply_obcq_unfold _ _ _ _ _ _ Hbc Hcall Hlayers) in Hrun.
  unfold bind at 1 in Hrun.
  destruct (compress_layers_from _ _ _ _ _) as [[accum|e] st1] eqn:Hloop; [|discriminate].
  apply compress_layers_from_frame in Hloop as [mdl1 Hself]. simpl in Hself.
  revert Hrun. run_py. rewrite Hself. simpl.
  destruct (head_compressor_ (self st)) as [hc|].
  - destruct (call_kw ["dev"] accum _) as [[mdl2 extras2]|e] eqn:Hhead; simpl; [|discriminate].
    intros [= <- <-]. simpl. exists accum. by apply call_kw_ok in Hhead.
  - by intros [= <- _].
Qed.

(** Initialisation of the Llama and OPT modifiers always returns: the layer
    list is whatever the selector found and the device is resolved. *)
Lemma initialize_obcq_returns st mdl device :
  cls (self st) <> SparseGPTModifierPyTorch ->
  exists bc,
    initialize_obcq mdl device st =
      (Ok tt,
       {| self :=
            {| cls := cls (self st); cfg := cfg (self st);
               model := Torch (mm_model mdl);
               compressible_layers_ :=
                 Some (List.map snd (get_layers mdl (compress_layers (cfg (self st)))));
               bottom_compressor_ := Some bc;
               head_compressor_ := None;
               device_ := if str_in "cuda" device && negb cuda_is_available
                          then "cpu" else device;
               finalization_kwargs_ := finalization_kwargs_ (self st) |};
          trace := trace st |}).
Proof.
  intros Hcls. unfold OBCQ.initialize_obcq, compressible_layers, bottom_compressor,
    head_compressor, OBCQ._set_device.
  destruct st as [[c k m l b h d f] tr]; simpl in *.
  destruct c; [done| |]; run_py;
    destruct (str_in "cuda" device && negb cuda_is_available); run_py; eauto.
Qed.

(** C3 (amended). When the selector matches no layer, [initialize_obcq] of
    the Llama and OPT modifiers raises nothing: it returns with an empty
    compressible-layer list. *)
Theorem empty_selection_is_accepted st mdl device :
  cls (self st) <> SparseGPTModifierPyTorch ->
  get_layers mdl (compress_layers (cfg (self st))) = [] ->
  exists st',
    initialize_obcq mdl device st = (Ok tt, st') /\
    compressible_layers_ (self st') = Some [].
Proof.
  intros Hcls Hempty.
  destruct (initialize_obcq_returns st mdl device Hcls) as [bc ->].
  eexists. split; [reflexivity|]. simpl. by rewrite Hempty.
Qed.

(** C4. [on_finalize] on an initialised modifier returns [True] and sets the
    model's [use_cache] to the payload's ['use_cache'] entry, [False] when
    the key is absent; a second call returns [True] again and leaves the
    whole store, the flag included, as the first call left it. *)
Theorem on_finalize_restores_use_cache_idempotently st payload tm :
  finalization_kwargs_ (self st) = Some payload ->
  model (self st) = Torch tm ->
  exists st1 tm1,
    on_finalize st = (Ok true, st1) /\
    model (self st1) = Torch tm1 /\
    use_cache tm1 = default (PyBool false) (payload !! "use_cache") /\
    on_finalize st1 = (Ok true, st1).
Proof.
  intros Hfk Hmodel. unfold on_finalize. run_py. rewrite Hfk, Hmodel. simpl.
  eexists _, _. split; [reflexivity|]. simpl. split; [reflexivity|].
  split; [reflexivity|]. rewrite Hfk. simpl.
  by rewrite disable_observers_idem.
Qed.

(** C5. [_set_device] never raises; the resolved device is ["cpu"] when the
    requested string contains ["cuda"] and CUDA is unavailable, and the
    requested string itself in every other case. Initialisation of the Llama
    and OPT modifiers, which ends with this step, returns with that device. *)
Theorem set_device_falls_back_to_cpu st device :
  (exists st',
     _set_device device st = (Ok tt, st') /\
     ((exists pre post, device = pre ++ "cuda" ++ post) /\ cuda_is_available = false ->
      device_ (self st') = "cpu") /\
     (~ ((exists pre post, device = pre ++ "cuda" ++ post) /\ cuda_is_available = false) ->
      device_ (self st') = device)) /\
  (forall mdl,
     cls (self st) <> SparseGPTModifierPyTorch ->
     exists st',
       initialize_obcq mdl device st = (Ok tt, st') /\
       device_ (self st') = device_ (self (snd (_set_device device st)))).
Proof.
  split.
  - unfold OBCQ._set_device.
    destruct (str_in "cuda" device) eqn:Hin; destruct cuda_is_available eqn:Hcuda; simpl;
      eexists; (split; [reflexivity|]); simpl; split; try done.
    + by intros [_ ?].
    + intros Hno. exfalso. apply Hno. split; [|done]. by apply str_in_spec.
    + intros [Hsub _]. apply str_in_spec in Hsub. congruence.
    + intros [Hsub _]. apply str_in_spec in Hsub. congruence.
  - intros mdl Hcls. destruct (initialize_obcq_returns st mdl device Hcls) as [bc ->].
    eexists. split; [reflexivity|]. unfold OBCQ._set_device.
    by destruct (str_in "cuda" device && negb cuda_is_available).
Qed.

End Driver.

Import Examples.

Lemma missing_outputs_raises_witness :
  apply_obcq layer_ok (PyObj 7) llama3_no_outputs =
    (Raise (RuntimeError outputs_missing),
     {| self := with_model (Torch tm0) (self llama3_no_outputs);
        trace := trace llama3_no_outputs ++ [BottomCompress "cpu"] |}).
Proof.
  apply (missing_outputs_raises_before_any_layer layer_ok llama3_no_outputs (PyObj 7)
           (bottom_no_outputs (Torch tm0)) (Torch tm0) {[ "use_cache" := PyBool true ]}
           (DecoderLayer 0) [DecoderLayer 1; DecoderLayer 2]);
    reflexivity.
Defined.

Lemma payload_witness :
  exists bc mdl0 extras0,
    bottom_compressor_ (self llama3) = Some bc /\
    bottom_compress bc (device_ (self llama3)) (target_ids (cfg (self llama3)))
      (layer_prefix (cfg (self llama3))) {[ "dataloader" := PyObj 7 ]} = Ok (mdl0, extras0) /\
    match head_compressor_ (self llama3) with
    | None => <[ "use_cache" := PyBool true ]> {[ "outputs" := PyObj 0 ]} = extras0
    | Some hc =>
        exists accum_kwargs,
          head_compress hc (device_ (self llama3)) accum_kwargs =
            Ok (model (self (snd (apply_obcq layer_ok (PyObj 7) llama3))),
                <[ "use_cache" := PyBool true ]> {[ "outputs" := PyObj 0 ]})
    end.
Proof.
  apply (payload_is_head_or_bottom_extras layer_ok llama3 (PyObj 7)
           (<[ "use_cache" := PyBool true ]> {[ "outputs" := PyObj 0 ]})
           (snd (apply_obcq layer_ok (PyObj 7) llama3))).
  vm_compute. reflexivity.
Defined.

(** C2, as stated, fails: three layers, no head compressor. The last event
    of the run is layer 2 returning [{'outputs': 3}], yet the payload is the
    bottom compressor's [{'outputs': 0, 'use_cache': True}]. *)
Lemma payload_is_not_last_layer_update :
  head_compressor_ (self llama3) = None /\
  fst (apply_obcq layer_ok (PyObj 7) llama3) =
    Ok (<[ "use_cache" := PyBool true ]> {[ "outputs" := PyObj 0 ]}) /\
  last (trace (snd (apply_obcq layer_ok (PyObj 7) llama3))) =
    Some (LayerReturned 2 {[ "outputs" := PyObj 3 ]}) /\
  (<[ "use_cache" := PyBool true ]> {[ "outputs" := PyObj 0 ]} : gmap string pyval)
    <> {[ "outputs" := PyObj 3 ]}.
Proof.
  repeat split; try (vm_compute; reflexivity).
  intros H. apply (f_equal (fun m : gmap string pyval => m !! "use_cache")) in H.
  vm_compute in H. discriminate.
Qed.

(** C3, as stated, fails: a Llama modifier whose selector matches nothing
    initialises without error and keeps the empty layer list. *)
Lemma empty_selection_initializes :
  fst (initialize_obcq bottom_ok bottom_ok false mm_empty "cuda:0"
         (fresh SparseLlamaModifierPyTorch)) = Ok tt /\
  compressible_layers_
    (self (snd (initialize_obcq bottom_ok bottom_ok false mm_empty "cuda:0"
                  (fresh SparseLlamaModifierPyTorch)))) = Some [].
Proof. split; reflexivity. Qed.

Lemma empty_selection_witness :
  exists st',
    initialize_obcq bottom_ok bottom_ok false mm_empty "cuda:0"
      (fresh SparseLlamaModifierPyTorch) = (Ok tt, st') /\
    compressible_layers_ (self st') = Some [].
Proof.
  apply (empty_selection_is_accepted bottom_ok bottom_ok false
           (fresh SparseLlamaModifierPyTorch) mm_empty "cuda:0").
  - discriminate.
  - reflexivity.
Defined.

Lemma on_finalize_witness :
  exists st1 tm1,
    on_finalize llama3_run = (Ok true, st1) /\
    model (self st1) = Torch tm1 /\
    use_cache tm1 =
      default (PyBool false)
        ((<[ "use_cache" := PyBool true ]> {[ "outputs" := PyObj 0 ]} : gmap string pyval)
           !! "use_cache") /\
    on_finalize st1 = (Ok true, st1).
Proof.
  apply (on_finalize_restores_use_cache_idempotently llama3_run
           (<[ "use_cache" := PyBool true ]> {[ "outputs" := PyObj 0 ]}) tm0).
  - vm_compute. reflexivity.
  - vm_compute. reflexivity.
Defined.

(** The scenario of three layers: the bottom stage, then layers 0, 1 and 2
    in order, each fed the outputs of the stage before it. *)
Example three_layers_in_order :
  trace (snd (apply_obcq layer_ok (PyObj 7) llama3)) =
    [BottomCompress "cpu";
     Compressing 0 3; LayerCompress 0 (DecoderLayer 0) (PyObj 0);
     LayerReturned 0 {[ "outputs" := PyObj 1 ]};
     Compressing 1 3; LayerCompress 1 (DecoderLayer 1) (PyObj 1);
     LayerReturned 1 {[ "outputs" := PyObj 2 ]};
     Compressing 2 3; LayerCompress 2 (DecoderLayer 2) (PyObj 2);
     LayerReturned 2 {[ "outputs" := PyObj 3 ]}].
Proof. vm_compute. reflexivity. Qed.

(** With a head compressor attached the payload is the head's extras. *)
Example head_extras_are_the_payload :
  fst (apply_obcq layer_ok (PyObj 7) (with_head llama3)) = Ok {[ "head" := PyBool true ]}.
Proof. vm_compute. reflexivity. Qed.

(** With no layer selected the run goes from the bottom stage straight to
    the return. *)
Example empty_selection_runs :
  fst (apply_obcq layer_ok (PyObj 7) llama_empty) =
    Ok (<[ "use_cache" := PyBool true ]> {[ "outputs" := PyObj 0 ]}) /\
  trace (snd (apply_obcq layer_ok (PyObj 7) llama_empty)) = [BottomCompress "cpu"].
Proof. split; vm_compute; reflexivity. Qed.

(** The base class has no bottom compressor: its initialisation stops at
    [NotImplementedError]. *)
Example base_class_is_abstract :
  fst (initialize_obcq bottom_ok bottom_ok false mm3 "cuda:0"
         (fresh SparseGPTModifierPyTorch)) = Raise NotImplementedError.
Proof. reflexivity. Qed.

Example device_examples :
  device_ (self (snd (_set_device false "cuda:0" (fresh SparseLlamaModifierPyTorch)))) = "cpu" /\
  device_ (self (snd (_set_device true "cuda:0" (fresh SparseLlamaModifierPyTorch)))) = "cuda:0" /\
  device_ (self (snd (_set_device false "cpu" (fresh SparseLlamaModifierPyTorch)))) = "cpu" /\
  device_ (self (snd (_set_device false "mps" (fresh SparseLlamaModifierPyTorch)))) = "mps".
Proof. repeat split. Qed.

End OBCQ_Facts.

(** * Facts about the per-layer distillation modifier *)
Module PerLayer_Facts.
Import PerLayer.

(** Dividing by zero never gives a finite number. *)
Lemma div_zero_not_finite (x : float) : finite (x / 0)%float = false.
Proof.
  unfold finite. rewrite FloatAxioms.div_spec.
  change (Prim2SF 0%float) with (S754_zero false).
  by destruct (Prim2SF x).
Qed.

Lemma cached_output_run_hook h out w :
  cached_output (run_hook h out w) (hook_outputs h) (hook_layer_name h) = Some out.
Proof.
  unfold cached_output, run_hook, forward_hook_fn; simpl.
  by rewrite !lookup_insert_eq.
Qed.

Lemma cached_shape_run_hook h out w :
  cached_shape (run_hook h out w) (hook_outputs_shape h) (hook_layer_name h) =
    match cached_shape w (hook_outputs_shape h) (hook_layer_name h) with
    | Some sh => Some sh
    | None => Some (shape out)
    end.
Proof.
  unfold cached_shape, run_hook, forward_hook_fn; simpl.
  rewrite lookup_insert_eq.
  destruct (shape_dicts w !! hook_outputs_shape h) as [d|]; simpl.
  - destruct (d !! hook_layer_name h) eqn:E; [done | by rewrite lookup_insert_eq].
  - rewrite lookup_empty. by rewrite lookup_insert_eq.
Qed.

Lemma cached_shape_run_hook_each h outs w sh :
  cached_shape w (hook_outputs_shape h) (hook_layer_name h) = Some sh ->
  cached_shape (run_hook_each h outs w) (hook_outputs_shape h) (hook_layer_name h) = Some sh.
Proof.
  revert w. induction outs as [|out outs IH]; intros w Hsh; [done|].
  simpl. apply IH. by rewrite cached_shape_run_hook, Hsh.
Qed.

Lemma last_cons_default {A} (x : A) (l : list A) (d d' : A) :
  List.last (x :: l) d = List.last (x :: l) d'.
Proof.
  revert x. induction l as [|y l IH]; intros x; [done|].
  change (List.last (y :: l) d = List.last (y :: l) d'). apply IH.
Qed.

Lemma cached_output_run_hook_each h out0 outs w :
  cached_output (run_hook_each h (out0 :: outs) w) (hook_outputs h) (hook_layer_name h)
  = Some (List.last outs out0).
Proof.
  revert w out0. induction outs as [|out outs IH]; intros w out0.
  - apply cached_output_run_hook.
  - change (run_hook_each h (out0 :: out :: outs) w)
      with (run_hook_each h (out :: outs) (run_hook h out0 w)).
    rewrite IH. f_equal. destruct outs as [|o outs]; [done|].
    apply (last_cons_default o outs).
Qed.

(** C9 (amended). Over any run of forward calls, the hook leaves under its
    layer's name the output of the last call (overwritten every time) and
    the shape of the first call: the shape is written only while the name is
    absent from the shape dictionary and is kept afterwards. *)
Theorem hook_keeps_last_output_and_first_shape h out0 outs w :
  cached_shape w (hook_outputs_shape h) (hook_layer_name h) = None ->
  cached_output (run_hook_each h (out0 :: outs) w) (hook_outputs h) (hook_layer_name h)
    = Some (List.last outs out0) /\
  cached_shape (run_hook_each h (out0 :: outs) w) (hook_outputs_shape h) (hook_layer_name h)
    = Some (shape out0).
Proof.
  intros Hfresh. split; [apply cached_output_run_hook_each|].
  change (run_hook_each h (out0 :: outs) w) with (run_hook_each h outs (run_hook h out0 w)).
  apply cached_shape_run_hook_each. by rewrite cached_shape_run_hook, Hfresh.
Qed.

(** C8 (amended). With [normalize] set, the loss term of a pair is its mean
    squared difference divided by the teacher output's mean square, with no
    floor under the divisor: when that mean square is zero the term is an
    infinity or a NaN. *)
Theorem normalized_difference_has_no_floor
    (student_module_output teacher_module_output : Tensor) :
  shape student_module_output = shape teacher_module_output ->
  exists diff,
    tensor_sub student_module_output teacher_module_output = Ok diff /\
    output_difference true student_module_output teacher_module_output =
      Ok (torch_mean (tensor_pow2 diff) / torch_mean (tensor_pow2 teacher_module_output))%float /\
    (torch_mean (tensor_pow2 teacher_module_output) = 0%float ->
     exists d,
       output_difference true student_module_output teacher_module_output = Ok d /\
       finite d = false).
Proof.
  intros Hshape. unfold output_difference, tensor_sub.
  destruct (decide _) as [_|Hne]; [|done].
  eexists. split; [reflexivity|]. split; [reflexivity|].
  intros Hzero. eexists. split; [reflexivity|].
  rewrite Hzero. apply div_zero_not_finite.
Qed.

(** C10. With [_teacher_names] unset and student names given, the
    [teacher_names] property returns the student names. *)
Theorem teacher_names_default_to_student_names
    {BaseState : Type} (self : Modifier BaseState) (names : list string) :
  _teacher_names self = None ->
  student_names self = Some names ->
  teacher_names self = Some names.
Proof.
  intros Hteacher Hstudent. unfold teacher_names. by rewrite Hteacher, Hstudent.
Qed.

Section Methods.

Context {BaseState : Type}.
Variable super_initialize : BaseState -> TorchModule -> teacher_arg -> result BaseState.
Variable super_finalize : BaseState -> option TorchModule -> bool -> result BaseState.
Variable public_handles : bool.

(** C6 (the code's behaviour at the sentinel). [initialize] with
    [distillation_teacher="disable"] never returns: whatever the base class
    does, the call ends in an exception, and when the base initialiser
    returns it is the [ValueError] for an unrecognised teacher. *)
Theorem initialize_with_disable_raises (module : TorchModule) (st : Store BaseState) :
  exists e st',
    initialize super_initialize module (TeacherStr "disable") st = (Raise e, st') /\
    (is_ok (super_initialize (base (self st)) module (TeacherStr "disable")) = true ->
     e = ValueError (unrecognized_teacher "disable")) /\
    world st' = world st.
Proof.
  unfold initialize, bind, get_self, lift, update_self, raise; simpl.
  destruct (super_initialize _ _ _) as [b|e]; simpl.
  - by eexists _, _.
  - eexists _, _. by repeat split.
Qed.

(** C7 (the code's behaviour on a repeated call). A [finalize] that returned
    cannot be followed by another one that returns: the second call raises,
    because the first left the handle lists set to [None] and the loops
    iterate over them unguarded. *)
Theorem finalize_after_finalize_raises module reset module' reset'
    (st st1 : Store BaseState) :
  finalize super_finalize public_handles module reset st = (Ok tt, st1) ->
  exists e st2,
    finalize super_finalize public_handles module' reset' st1 = (Raise e, st2).
Proof.
  unfold finalize, student_handles, teacher_handles, remove_all.
  unfold bind, get_self, lift, update_self, update_world, raise, ret; simpl.
  destruct (super_finalize (base (self st)) module reset) as [b|e]; simpl; [|discriminate].
  destruct public_handles; simpl; [|discriminate].
  destruct (_student_handles (self st)); simpl; [|discriminate].
  destruct (_teacher_handles (self st)); simpl; [|discriminate].
  intros [= <-]. simpl.
  destruct (super_finalize b module' reset') as [b'|e]; simpl; eauto.
Qed.

(** When the public names are not provided by a base class, [finalize]
    never returns at all. *)
Lemma finalize_without_public_names_raises module reset (st : Store BaseState) :
  public_handles = false ->
  exists e st', finalize super_finalize public_handles module reset st = (Raise e, st').
Proof.
  intros ->. unfold finalize, student_handles.
  unfold bind, get_self, lift, update_self, raise; simpl.
  destruct (super_finalize _ _ _); simpl; eauto.
Qed.

End Methods.

Import Examples.

Lemma hook_witness :
  cached_output
    (run_hook_each (_create_cache_output_hook "fc" 0 2)
       [vec [1%float; 2%float]; vec [1%float; 2%float; 3%float]] (world distill1)) 0 "fc"
    = Some (vec [1%float; 2%float; 3%float]) /\
  cached_shape
    (run_hook_each (_create_cache_output_hook "fc" 0 2)
       [vec [1%float; 2%float]; vec [1%float; 2%float; 3%float]] (world distill1)) 2 "fc"
    = Some [2].
Proof.
  apply (hook_keeps_last_output_and_first_shape (_create_cache_output_hook "fc" 0 2)
           (vec [1%float; 2%float]) [vec [1%float; 2%float; 3%float]] (world distill1)).
  vm_compute. reflexivity.
Defined.

(** C9, as stated, fails: after two forward passes of the student's [fc]
    with outputs of shape [[2]] and then [[3]], the modifier's dictionaries
    hold the second output but still the first shape. *)
Lemma hook_shape_is_not_overwritten :
  _cached_student_output (self distill1) = Some 0 /\
  _student_output_shapes (self distill1) = Some 2 /\
  cached_output two_batches 0 "fc" = Some (vec [1%float; 2%float; 3%float]) /\
  cached_shape two_batches 2 "fc" = Some [2] /\
  shape (vec [1%float; 2%float; 3%float]) = [3].
Proof. repeat split; vm_compute; reflexivity. Qed.

Lemma normalized_difference_witness :
  exists diff,
    tensor_sub (vec [1%float]) (vec [0%float]) = Ok diff /\
    output_difference true (vec [1%float]) (vec [0%float]) =
      Ok (torch_mean (tensor_pow2 diff) / torch_mean (tensor_pow2 (vec [0%float])))%float /\
    (torch_mean (tensor_pow2 (vec [0%float])) = 0%float ->
     exists d,
       output_difference true (vec [1%float]) (vec [0%float]) = Ok d /\
       finite d = false).
Proof.
  apply (normalized_difference_has_no_floor (vec [1%float]) (vec [0%float])).
  reflexivity.
Defined.

(** C8, as stated, fails: with [normalize] on, a student output [1.0]
    against a teacher output [0.0] makes [compute_distillation_loss] return
    an infinity. *)
Lemma zero_teacher_gives_infinite_loss :
  normalize (self distill2) = true /\
  cached_output (world distill2) 0 "fc" = Some (vec [1%float]) /\
  cached_output (world distill2) 1 "fc" = Some (vec [0%float]) /\
  fst (compute_distillation_loss no_projection_init no_projection distill2) = Ok infinity /\
  finite infinity = false.
Proof. repeat split; vm_compute; reflexivity. Qed.

Lemma teacher_names_witness :
  teacher_names (__init__ tt 1%float true (Some ["fc"]) None false "teacher") = Some ["fc"].
Proof.
  apply (teacher_names_default_to_student_names
           (__init__ tt 1%float true (Some ["fc"]) None false "teacher") ["fc"]);
    reflexivity.
Defined.

Lemma finalize_twice_witness :
  exists e st2,
    finalize super_finalize_ok true None true
      (snd (finalize super_finalize_ok true None true distill2)) = (Raise e, st2).
Proof.
  apply (finalize_after_finalize_raises super_finalize_ok true None true None true distill2
           (snd (finalize super_finalize_ok true None true distill2))).
  vm_compute. reflexivity.
Defined.

(** Discovery by type walks the children depth first and joins names with
    dots; discovery by name keeps the listed paths only. *)
Example discovery_by_type :
  List.map fst (_find_layers_by_type deep_net [] "") = ["features.0"; "classifier"].
Proof. reflexivity. Qed.

Example discovery_by_name :
  List.map fst (_find_layers_by_name deep_net ["classifier"; "features"] [] "")
  = ["features"; "classifier"].
Proof. reflexivity. Qed.

(** After [initialize] both hooks sit in [_student_handles]; when the public
    names resolve, one [finalize] removes them and drops the caches. *)
Example finalize_once :
  _student_handles (self distill2) = Some [4; 5] /\
  _teacher_handles (self distill2) = Some [] /\
  List.map fst (forward_hooks (world distill2)) = [4; 5] /\
  fst (finalize super_finalize_ok true None true distill2) = Ok tt /\
  forward_hooks (world (snd (finalize super_finalize_ok true None true distill2))) = [] /\
  _cached_student_output (self (snd (finalize super_finalize_ok true None true distill2)))
    = None /\
  _cached_teacher_output (self (snd (finalize super_finalize_ok true None true distill2)))
    = None.
Proof. repeat split; vm_compute; reflexivity. Qed.

(** [compute_total_loss] has no disabled path: it always adds the weighted
    distillation term. *)
Example total_loss_adds_distillation_term :
  compute_total_loss (self distill0) 1%float 1%float = 2%float.
Proof. reflexivity. Qed.

End PerLayer_Facts.

(** * More facts about the OBCQ pipeline driver *)
Module OBCQ_Extra.
Import OBCQ OBCQ_Facts.

Local Open Scope list_scope.

Lemma with_model_same (self : Modifier) : with_model (model self) self = self.
Proof. by destruct self. Qed.

Lemma store_eta (st : Store) : {| self := self st; trace := trace st |} = st.
Proof. by destruct st. Qed.

Lemma class_cases (c : Class) :
  c = SparseGPTModifierPyTorch \/ c <> SparseGPTModifierPyTorch.
Proof. destruct c; auto. Qed.


Lemma devices_used_app (tr1 tr2 : list event) :
  devices_used (tr1 ++ tr2) = devices_used tr1 ++ devices_used tr2.
Proof.
  induction tr1 as [|e tr1 IH]; [done|].
  destruct e; simpl; by rewrite ?IH.
Qed.

Section Driver.

Variable LayerCompressor_compress :
  AnyModel -> Layer -> nat -> pyval -> CompressionArgs ->
  string -> gmap string pyval -> result (AnyModel * gmap string pyval).
Variables LlamaBottomCompressor OPTBottomCompressor : AnyModel -> BottomCompressor.
Variable cuda_is_available : bool.

#[local] Abbreviation apply_obcq := (apply_obcq LayerCompressor_compress).
#[local] Abbreviation compress_layers_from := (compress_layers_from LayerCompressor_compress).
#[local] Abbreviation initialize_obcq :=
  (initialize_obcq LlamaBottomCompressor OPTBottomCompressor cuda_is_available).
#[local] Abbreviation on_initialize :=
  (on_initialize LayerCompressor_compress LlamaBottomCompressor OPTBottomCompressor
     cuda_is_available).
#[local] Abbreviation _set_device := (_set_device cuda_is_available).

(** Everything the layer loop does to the store, and what its events look
    like when it runs to the end. *)
Lemma loop_run n idx layers accum st r st' :
  compress_layers_from n idx layers accum st = (r, st') ->
  exists mdl evs,
    st' = {| self := with_model mdl (self st); trace := trace st ++ evs |} /\
    devices_used evs = [] /\
    forall accum', r = Ok accum' ->
      layer_calls evs = enumerate_from idx layers /\
      dom accum ⊆ dom accum' /\
      forall cur, accum !! "outputs" = Some cur ->
        chained cur evs /\ is_Some (accum' !! "outputs").
Proof.
  revert idx accum st. induction layers as [|layer rest IH]; intros idx accum st; simpl.
  - intros [= <- <-]. exists (model (self st)), [].
    rewrite with_model_same, app_nil_r, store_eta. split; [done|]. split; [done|].
    intros accum' [= <-]. split; [done|]. split; [done|].
    intros cur Hcur. split; [done|]. rewrite Hcur. eauto.
  - destruct (accum !! "outputs") as [inputs|] eqn:Hout.
    + run_py. destruct (call_kw _ _ _) as [[mdl kw]|e] eqn:Hcall; simpl.
      * intros Hrest. apply IH in Hrest as (mdl' & evs & -> & Hdev & Hok). simpl.
        exists mdl', ([Compressing idx n; LayerCompress idx layer inputs;
                       LayerReturned idx kw] ++ evs).
        split; [by rewrite <- !app_assoc|]. split; [done|].
        intros accum' ->. destruct (Hok accum' eq_refl) as (Hcalls & Hdom & Hchain).
        split; [simpl; by rewrite Hcalls|].
        split; [etrans; [|exact Hdom]; unfold dict_update; rewrite dom_union;
                apply union_subseteq_r|].
        intros cur [= ->].
        destruct (Hchain (default cur (kw !! "outputs"))) as [Hch Hsome].
        { unfold dict_update. rewrite lookup_union, Hout. by destruct (kw !! "outputs"). }
        simpl. eauto.
      * intros [= <- <-]. exists (model (self st)),
          [Compressing idx n; LayerCompress idx layer inputs].
        rewrite with_model_same. split; [by rewrite <- !app_assoc|]. split; [done|].
        intros accum' [=].
    + intros [= <- <-]. exists (model (self st)), [].
      rewrite with_model_same, app_nil_r, store_eta. split; [done|]. split; [done|].
      intros accum' [=].
Qed.


Lemma call_kw_ok_fresh {A} (explicit : list string) (kw : gmap string pyval)
    (f : gmap string pyval -> result A) (a : A) :
  call_kw explicit kw f = Ok a ->
  f kw = Ok a /\ Forall (fun k => kw !! k = None) explicit.
Proof.
  unfold call_kw. destruct (List.find _ explicit) as [k|] eqn:Hfind; [discriminate|].
  intros Hf. split; [done|]. apply Forall_forall. intros k Hk.
  apply list_elem_of_In in Hk.
  pose proof (find_none _ _ Hfind k Hk) as Hnone. simpl in Hnone.
  apply bool_decide_eq_false in Hnone.
  destruct (kw !! k) eqn:E; [|done]. exfalso. apply Hnone. eauto.
Qed.

(** A run that returns, taken apart: the bottom call, the layer loop on the
    merged state, and the head stage when there is one. *)
Lemma apply_ok st dataloader payload st' :
  apply_obcq dataloader st = (Ok payload, st') ->
  exists bc mdl0 extras layers accum' mdl evs,
    bottom_compressor_ (self st) = Some bc /\
    bottom_compress bc (device_ (self st)) (target_ids (cfg (self st)))
      (layer_prefix (cfg (self st))) {[ "dataloader" := dataloader ]} = Ok (mdl0, extras) /\
    compressible_layers_ (self st) = Some layers /\
    compress_layers_from (length layers) 0 layers
      (dict_update {[ "dataloader" := dataloader ]} extras)
      {| self := with_model mdl0 (self st);
         trace := trace st ++ [BottomCompress (device_ (self st))] |}
    = (Ok accum',
       {| self := with_model mdl (self st);
          trace := (trace st ++ [BottomCompress (device_ (self st))]) ++ evs |}) /\
    match head_compressor_ (self st) with
    | None =>
        payload = extras /\
        st' = {| self := with_model mdl (self st);
                 trace := trace st ++ [BottomCompress (device_ (self st))] ++ evs |}
    | Some hc =>
        exists mdl2,
          head_compress hc (device_ (self st)) accum' = Ok (mdl2, payload) /\
          accum' !! "dev" = None /\
          st' = {| self := with_model mdl2 (self st);
                   trace := trace st ++ [BottomCompress (device_ (self st))] ++ evs
                            ++ [HeadCompress (device_ (self st))] |}
    end.
Proof.
  intros Hrun.
  destruct (bottom_compressor_ (self st)) as [bc|] eqn:Hbc;
    [|unfold OBCQ.apply_obcq in Hrun; revert Hrun; run_py; rewrite Hbc; discriminate].
  destruct (bottom_compress bc (device_ (self st)) (target_ids (cfg (self st)))
              (layer_prefix (cfg (self st))) {[ "dataloader" := dataloader ]})
    as [[mdl0 extras]|e] eqn:Hcall;
    [|unfold OBCQ.apply_obcq in Hrun; revert Hrun; run_py; rewrite Hbc; simpl;
      rewrite call_kw_dataloader, Hcall; discriminate].
  destruct (compressible_layers_ (self st)) as [layers|] eqn:Hlayers;
    [|unfold OBCQ.apply_obcq in Hrun; revert Hrun; run_py; rewrite Hbc; simpl;
      rewrite call_kw_dataloader, Hcall; simpl; rewrite Hlayers; discriminate].
  rewrite (apply_obcq_unfold _ _ _ _ _ _ _ Hbc Hcall Hlayers) in Hrun.
  unfold bind at 1 in Hrun.
  destruct (compress_layers_from _ _ _ _ _) as [[accum'|e] st1] eqn:Hloop; [|discriminate].
  destruct (loop_run _ _ _ _ _ _ _ Hloop) as (mdl & evs & -> & _ & _). simpl in *.
  exists bc, mdl0, extras, layers, accum', mdl, evs.
  split; [done|]. split; [done|]. split; [done|]. split; [done|].
  revert Hrun. run_py.
  destruct (head_compressor_ (self st)) as [hc|].
  - destruct (call_kw ["dev"] accum' _) as [[mdl2 extras2]|e] eqn:Hhead; simpl; [|discriminate].
    intros [= <- <-]. apply call_kw_ok_fresh in Hhead as [Hhead Hfresh].
    exists mdl2. split; [done|]. split; [by inversion Hfresh|].
    by rewrite <- !app_assoc.
  - intros [= <- <-]. split; [done|]. by rewrite <- !app_assoc.
Qed.

(** Whatever the outcome, a run touches [self.model] only, appends to the
    trace only, and hands its compressors the device resolved at
    initialisation. *)
Lemma apply_run st dataloader r st' :
  apply_obcq dataloader st = (r, st') ->
  exists mdl evs,
    st' = {| self := with_model mdl (self st); trace := trace st ++ evs |} /\
    Forall (eq (device_ (self st))) (devices_used evs).
Proof.
  intros Hrun.
  assert (forall e, (Raise e, st) = (r, st') ->
            exists mdl evs,
              st' = {| self := with_model mdl (self st); trace := trace st ++ evs |} /\
              Forall (eq (device_ (self st))) (devices_used evs)) as Hnoop.
  { intros e [= <- <-]. exists (model (self st)), [].
    by rewrite with_model_same, app_nil_r, store_eta. }
  destruct (bottom_compressor_ (self st)) as [bc|] eqn:Hbc;
    [|unfold OBCQ.apply_obcq in Hrun; revert Hrun; run_py; rewrite Hbc; simpl; eauto].
  destruct (bottom_compress bc (device_ (self st)) (target_ids (cfg (self st)))
              (layer_prefix (cfg (self st))) {[ "dataloader" := dataloader ]})
    as [[mdl0 extras]|e] eqn:Hcall.
  2:{ unfold OBCQ.apply_obcq in Hrun; revert Hrun; run_py; rewrite Hbc; simpl.
      rewrite call_kw_dataloader, Hcall. intros [= <- <-].
      exists (model (self st)), [BottomCompress (device_ (self st))].
      rewrite with_model_same. split; [done|]. simpl. by repeat constructor. }
  destruct (compressible_layers_ (self st)) as [layers|] eqn:Hlayers.
  2:{ unfold OBCQ.apply_obcq in Hrun; revert Hrun; run_py; rewrite Hbc; simpl.
      rewrite call_kw_dataloader, Hcall; simpl. rewrite Hlayers. intros [= <- <-].
      exists mdl0, [BottomCompress (device_ (self st))].
      split; [done|]. simpl. by repeat constructor. }
  rewrite (apply_obcq_unfold _ _ _ _ _ _ _ Hbc Hcall Hlayers) in Hrun.
  unfold bind at 1 in Hrun.
  destruct (compress_layers_from _ _ _ _ _) as [[accum'|e] st1] eqn:Hloop.
  - destruct (loop_run _ _ _ _ _ _ _ Hloop) as (mdl & evs & -> & Hdev & _). simpl in *.
    revert Hrun. run_py.
    destruct (head_compressor_ (self st)) as [hc|].
    + destruct (call_kw ["dev"] accum' _) as [[mdl2 extras2]|e]; simpl;
        intros [= <- <-]; eexists _, ([BottomCompress (device_ (self st))] ++ evs ++
                                      [HeadCompress (device_ (self st))]);
        (split; [by rewrite <- !app_assoc|]);
        rewrite !devices_used_app, Hdev; simpl; by repeat constructor.
    + intros [= <- <-]. eexists _, ([BottomCompress (device_ (self st))] ++ evs).
      split; [by rewrite <- !app_assoc|].
      rewrite !devices_used_app, Hdev; simpl; by repeat constructor.
  - destruct (loop_run _ _ _ _ _ _ _ Hloop) as (mdl & evs & -> & Hdev & _). simpl in *.
    injection Hrun as <- <-.
    eexists _, ([BottomCompress (device_ (self st))] ++ evs).
    split; [by rewrite <- !app_assoc|].
    rewrite !devices_used_app, Hdev; simpl; by repeat constructor.
Qed.


Lemma initialize_obcq_base st mdl device :
  cls (self st) = SparseGPTModifierPyTorch ->
  initialize_obcq mdl device st =
    (Raise NotImplementedError,
     {| self := with_compressible_layers
                  (List.map snd (get_layers mdl (compress_layers (cfg (self st)))))
                  (with_model (Torch (mm_model mdl)) (self st));
        trace := trace st |}).
Proof.
  intros Hcls. unfold OBCQ.initialize_obcq, compressible_layers, bottom_compressor.
  destruct st as [[c k m l b h d f] tr]; simpl in *. subst c. reflexivity.
Qed.

Lemma observers_off (l : list bool) :
  List.map (fun _ => false) l = repeat false (length l).
Proof. induction l as [|b l IH]; simpl; by rewrite ?IH. Qed.

Lemma initialize_obcq_result st mdl device :
  cls (self st) <> SparseGPTModifierPyTorch ->
  initialize_obcq mdl device st =
    (Ok tt,
     {| self :=
          {| cls := cls (self st); cfg := cfg (self st);
             model := Torch (mm_model mdl);
             compressible_layers_ :=
               Some (List.map snd (get_layers mdl (compress_layers (cfg (self st)))));
             bottom_compressor_ :=
               Some (match cls (self st) with
                     | SparseOPTModifierPyTorch => OPTBottomCompressor (Torch (mm_model mdl))
                     | _ => LlamaBottomCompressor (Torch (mm_model mdl))
                     end);
             head_compressor_ := None;
             device_ := if str_in "cuda" device && negb cuda_is_available
                        then "cpu" else device;
             finalization_kwargs_ := finalization_kwargs_ (self st) |};
        trace := trace st |}).
Proof.
  intros Hcls. unfold OBCQ.initialize_obcq, compressible_layers, bottom_compressor,
    head_compressor, OBCQ._set_device.
  destruct st as [[c k m l b h d f] tr]; simpl in *.
  destruct c; [done| |]; run_py;
    by destruct (str_in "cuda" device && negb cuda_is_available).
Qed.


(** X2. The base class has no bottom compressor: its initialisation raises
    [NotImplementedError], and by then it has already replaced [self.model]
    by the unwrapped model and stored the layer list; the compressors and
    the device are as they were. *)
Theorem base_class_initialization_is_partial st mdl device :
  cls (self st) = SparseGPTModifierPyTorch ->
  exists st',
    initialize_obcq mdl device st = (Raise NotImplementedError, st') /\
    model (self st') = Torch (mm_model mdl) /\
    compressible_layers_ (self st') =
      Some (List.map snd (get_layers mdl (compress_layers (cfg (self st))))) /\
    bottom_compressor_ (self st') = bottom_compressor_ (self st) /\
    head_compressor_ (self st') = head_compressor_ (self st) /\
    device_ (self st') = device_ (self st).
Proof.
  intros Hcls. rewrite (initialize_obcq_base st mdl device Hcls).
  eexists. split; [reflexivity|]. by simpl.
Qed.



(** X5. The accumulated state is passed as [**accum_kwargs] next to an
    explicit [dev=]: when the bottom compressor's extras carry a key
    ['dev'] (and ['outputs']), the call to the first layer's [compress] is
    refused with [TypeError] and nothing is returned by any layer. *)
Theorem dev_key_in_extras_is_a_type_error st dataloader bc mdl extras inputs layer rest :
  bottom_compressor_ (self st) = Some bc ->
  bottom_compress bc (device_ (self st)) (target_ids (cfg (self st)))
    (layer_prefix (cfg (self st))) {[ "dataloader" := dataloader ]} = Ok (mdl, extras) ->
  extras !! "outputs" = Some inputs ->
  is_Some (extras !! "dev") ->
  compressible_layers_ (self st) = Some (layer :: rest) ->
  apply_obcq dataloader st =
    (Raise (TypeError "got multiple values for keyword argument 'dev'"),
     {| self := with_model mdl (self st);
        trace := trace st ++
                 [BottomCompress (device_ (self st));
                  Compressing 0 (S (length rest));
                  LayerCompress 0 layer inputs] |}).
Proof.
  intros Hbc Hcall Hout [v Hdev] Hlayers.
  rewrite (apply_obcq_unfold _ _ _ _ _ _ _ Hbc Hcall Hlayers).
  set (d0 := {[ "dataloader" := dataloader ]} : gmap string pyval).
  assert ((extras ∪ d0) !! "outputs" = Some inputs) as Ho
    by (by apply lookup_union_Some_l).
  assert ((extras ∪ d0) !! "dev" = Some v) as Hd
    by (by apply lookup_union_Some_l).
  unfold bind at 1. simpl. unfold dict_update. rewrite Ho.
  run_py. unfold call_kw. simpl. rewrite Hd.
  rewrite bool_decide_eq_true_2 by eauto.
  simpl. by rewrite <- !app_assoc.
Qed.

(** X6. When a head compressor is configured, it is called with the
    accumulated state of the whole run: every key the bottom compressor
    returned and the ['dataloader'] key are still present (no stage can
    remove a key), and there is no ['dev'] key. *)
Theorem head_compressor_sees_the_accumulated_state st dataloader payload st' hc :
  apply_obcq dataloader st = (Ok payload, st') ->
  head_compressor_ (self st) = Some hc ->
  exists bc mdl0 extras accum_kwargs mdl,
    bottom_compressor_ (self st) = Some bc /\
    bottom_compress bc (device_ (self st)) (target_ids (cfg (self st)))
      (layer_prefix (cfg (self st))) {[ "dataloader" := dataloader ]} = Ok (mdl0, extras) /\
    head_compress hc (device_ (self st)) accum_kwargs = Ok (mdl, payload) /\
    is_Some (accum_kwargs !! "dataloader") /\
    (forall k, is_Some (extras !! k) -> is_Some (accum_kwargs !! k)) /\
    accum_kwargs !! "dev" = None.
Proof.
  intros Hrun Hhc.
  destruct (apply_ok _ _ _ _ Hrun)
    as (bc & mdl0 & extras & layers & accum' & mdl & evs & Hbc & Hcall & _ & Hloop & Hhead).
  rewrite Hhc in Hhead. destruct Hhead as (mdl2 & Hhead & Hdev & _).
  exists bc, mdl0, extras, accum', mdl2.
  split; [done|]. split; [done|]. split; [done|].
  destruct (loop_run _ _ _ _ _ _ _ Hloop) as (mdl' & evs' & _ & _ & Hok).
  destruct (Hok accum' eq_refl) as (_ & Hdom & _).
  unfold dict_update in Hdom. rewrite dom_union in Hdom.
  split; [|split; [|done]].
  - apply elem_of_dom, Hdom, elem_of_union. right.
    apply elem_of_dom. rewrite lookup_singleton_eq. eauto.
  - intros k Hk. apply elem_of_dom, Hdom, elem_of_union. left. by apply elem_of_dom.
Qed.

(** X7. When [on_initialize] returns, it returns [True] and the stored
    finalization payload is exactly the bottom compressor's extras of this
    run: whatever [finalization_kwargs_] held before is discarded and no
    layer update is merged in. *)
Theorem on_initialize_stores_the_bottom_extras state st b st' :
  on_initialize state st = (Ok b, st') ->
  b = true /\
  exists bc mdl0 extras,
    bottom_compressor_ (self st') = Some bc /\
    bottom_compress bc (device_ (self st')) (target_ids (cfg (self st)))
      (layer_prefix (cfg (self st))) {[ "dataloader" := state_calib state ]}
    = Ok (mdl0, extras) /\
    finalization_kwargs_ (self st') = Some extras.
Proof.
  unfold OBCQ.on_initialize. unfold bind at 1. unfold update_self at 1. simpl.
  unfold bind at 1.
  set (st0 := {| self := with_finalization_kwargs ∅ (self st); trace := trace st |}).
  destruct (class_cases (cls (self st0))) as [Hbase|Hcls].
  { by rewrite (initialize_obcq_base st0 _ _ Hbase). }
  rewrite (initialize_obcq_result st0 _ _ Hcls).
  unfold bind at 1.
  match goal with |- context [OBCQ.apply_obcq _ _ ?s] => set (st1 := s) end.
  destruct (OBCQ.apply_obcq _ _ st1) as [[payload|e] st2] eqn:Hrun; [|discriminate].
  destruct (apply_ok _ _ _ _ Hrun)
    as (bc & mdl0 & extras & layers & accum' & mdl & evs & Hbc & Hcall & _ & _ & Hhead).
  simpl in Hhead. destruct Hhead as (-> & ->).
  run_py. intros [= <- <-]. split; [done|].
  exists bc, mdl0, extras. simpl. split; [done|]. split; [exact Hcall|].
  unfold dict_update. by rewrite (right_id_L ∅ (∪)).
Qed.


(** X8. When [on_initialize] raises, at whatever stage, the stored
    finalization payload is the empty dictionary it was reset to at the
    start; a later [on_finalize] on a torch model therefore sets
    [use_cache] to [False]. *)
Theorem failed_on_initialize_leaves_an_empty_payload state st e st' :
  on_initialize state st = (Raise e, st') ->
  finalization_kwargs_ (self st') = Some ∅ /\
  forall tm, model (self st') = Torch tm ->
    exists st'' tm', on_finalize st' = (Ok true, st'') /\
                     model (self st'') = Torch tm' /\ use_cache tm' = PyBool false.
Proof.
  intros Hrun.
  assert (finalization_kwargs_ (self st') = Some ∅) as Hfk.
  { revert Hrun.
    unfold OBCQ.on_initialize. unfold bind at 1. unfold update_self at 1. simpl.
    unfold bind at 1.
    set (st0 := {| self := with_finalization_kwargs ∅ (self st); trace := trace st |}).
    destruct (class_cases (cls (self st0))) as [Hbase|Hcls].
    { rewrite (initialize_obcq_base st0 _ _ Hbase). by intros [= _ <-]. }
    rewrite (initialize_obcq_result st0 _ _ Hcls).
    unfold bind at 1.
    match goal with |- context [OBCQ.apply_obcq _ _ ?s] => set (st1 := s) end.
    destruct (OBCQ.apply_obcq _ _ st1) as [[payload|e'] st2] eqn:Hrun;
      destruct (apply_run _ _ _ _ Hrun) as (mdl & evs & -> & _).
    - by run_py.
    - by intros [= _ <-]. }
  split; [done|]. intros tm Hmodel.
  unfold on_finalize. run_py. rewrite Hfk, Hmodel. simpl. eauto.
Qed.

(** X9. When [on_finalize] returns, it returns [True], every observer of
    the model is switched off, the weights are untouched, [use_cache] is the
    payload's entry or [False], and nothing else of the modifier or of the
    trace has changed. *)
Theorem on_finalize_only_touches_observers_and_cache st b st' :
  on_finalize st = (Ok b, st') ->
  b = true /\
  exists tm payload,
    model (self st) = Torch tm /\
    finalization_kwargs_ (self st) = Some payload /\
    st' = {| self :=
               with_model
                 (Torch {| weights := weights tm;
                           observers := repeat false (length (observers tm));
                           use_cache := default (PyBool false) (payload !! "use_cache") |})
                 (self st);
             trace := trace st |}.
Proof.
  unfold on_finalize. run_py.
  destruct (finalization_kwargs_ (self st)) as [payload|]; [|discriminate].
  destruct (model (self st)) as [|mm|tm]; try discriminate. simpl.
  intros [= <- <-]. split; [done|]. exists tm, payload.
  split; [done|]. split; [done|].
  unfold set_use_cache, disable_observers. simpl. by rewrite observers_off.
Qed.

(** X10. [on_finalize] raises only on a modifier that holds no finalization
    payload or no torch model (never initialised, or initialisation stopped
    early); the error is an [AttributeError] and the store is left as it
    was. *)
Theorem on_finalize_raises_only_when_uninitialised st e st' :
  on_finalize st = (Raise e, st') ->
  st' = st /\
  (exists msg, e = AttributeError msg) /\
  (finalization_kwargs_ (self st) = None \/ forall tm, model (self st) <> Torch tm).
Proof.
  unfold on_finalize. run_py.
  destruct (finalization_kwargs_ (self st)) as [payload|].
  - destruct (model (self st)) as [|mm|tm]; simpl; [| |discriminate];
      intros [= <- <-]; (split; [by destruct st|]); (split; [eauto|]); right; done.
  - intros [= <- <-]. split; [by destruct st|]. split; [eauto|]. by left.
Qed.


(** X12. Whatever its outcome, [apply_obcq] changes nothing of the modifier
    but [self.model] (not the device, the layer list, the compressors or
    the stored payload) and only appends to the trace. *)
Theorem apply_obcq_only_reassigns_the_model st dataloader :
  exists mdl evs,
    snd (apply_obcq dataloader st) =
      {| self := with_model mdl (self st); trace := trace st ++ evs |}.
Proof.
  destruct (apply_obcq dataloader st) as [r st'] eqn:Hrun.
  destruct (apply_run _ _ _ _ Hrun) as (mdl & evs & -> & _). eauto.
Qed.

End Driver.

Import Examples Examples2.


Lemma base_class_witness :
  exists st',
    initialize_obcq bottom_ok bottom_ok false mm3 "cuda:0" (fresh SparseGPTModifierPyTorch)
    = (Raise NotImplementedError, st') /\
    model (self st') = Torch (mm_model mm3) /\
    compressible_layers_ (self st') =
      Some (List.map snd (get_layers mm3 (compress_layers (cfg (self (fresh SparseGPTModifierPyTorch)))))) /\
    bottom_compressor_ (self st') = bottom_compressor_ (self (fresh SparseGPTModifierPyTorch)) /\
    head_compressor_ (self st') = head_compressor_ (self (fresh SparseGPTModifierPyTorch)) /\
    device_ (self st') = device_ (self (fresh SparseGPTModifierPyTorch)).
Proof.
  apply (base_class_initialization_is_partial bottom_ok bottom_ok false
           (fresh SparseGPTModifierPyTorch) mm3 "cuda:0").
  reflexivity.
Defined.



Lemma dev_key_witness :
  apply_obcq layer_ok (PyObj 7) llama3_dev =
    (Raise (TypeError "got multiple values for keyword argument 'dev'"),
     {| self := with_model (Torch tm0) (self llama3_dev);
        trace := trace llama3_dev ++
                 [BottomCompress (device_ (self llama3_dev));
                  Compressing 0 (S (length [DecoderLayer 1; DecoderLayer 2]));
                  LayerCompress 0 (DecoderLayer 0) (PyObj 0)] |}).
Proof.
  apply (dev_key_in_extras_is_a_type_error layer_ok llama3_dev (PyObj 7)
           (bottom_with_dev (Torch tm0)) (Torch tm0)
           (<[ "dev" := PyStr "cuda:1" ]> {[ "outputs" := PyObj 0 ]}) (PyObj 0)
           (DecoderLayer 0) [DecoderLayer 1; DecoderLayer 2]);
    try reflexivity.
  exists (PyStr "cuda:1"). reflexivity.
Defined.

Lemma head_compressor_witness :
  exists bc mdl0 extras accum_kwargs mdl,
    bottom_compressor_ (self (with_head llama3)) = Some bc /\
    bottom_compress bc (device_ (self (with_head llama3)))
      (target_ids (cfg (self (with_head llama3))))
      (layer_prefix (cfg (self (with_head llama3)))) {[ "dataloader" := PyObj 7 ]}
    = Ok (mdl0, extras) /\
    head_compress head_ok (device_ (self (with_head llama3))) accum_kwargs
    = Ok (mdl, {[ "head" := PyBool true ]}) /\
    is_Some (accum_kwargs !! "dataloader") /\
    (forall k, is_Some (extras !! k) -> is_Some (accum_kwargs !! k)) /\
    accum_kwargs !! "dev" = None.
Proof.
  apply (head_compressor_sees_the_accumulated_state layer_ok (with_head llama3) (PyObj 7)
           {[ "head" := PyBool true ]}
           (snd (apply_obcq layer_ok (PyObj 7) (with_head llama3))) head_ok).
  - vm_compute. reflexivity.
  - reflexivity.
Defined.

Lemma on_initialize_witness :
  true = true /\
  exists bc mdl0 extras,
    bottom_compressor_ (self llama3_run) = Some bc /\
    bottom_compress bc (device_ (self llama3_run))
      (target_ids (cfg (self (fresh SparseLlamaModifierPyTorch))))
      (layer_prefix (cfg (self (fresh SparseLlamaModifierPyTorch))))
      {[ "dataloader" := state_calib state3 ]}
    = Ok (mdl0, extras) /\
    finalization_kwargs_ (self llama3_run) = Some extras.
Proof.
  apply (on_initialize_stores_the_bottom_extras layer_ok bottom_ok bottom_ok false
           state3 (fresh SparseLlamaModifierPyTorch) true llama3_run).
  vm_compute. reflexivity.
Defined.

Lemma failed_on_initialize_witness :
  finalization_kwargs_ (self llama3_failed) = Some ∅ /\
  forall tm, model (self llama3_failed) = Torch tm ->
    exists st'' tm', on_finalize llama3_failed = (Ok true, st'') /\
                     model (self st'') = Torch tm' /\ use_cache tm' = PyBool false.
Proof.
  apply (failed_on_initialize_leaves_an_empty_payload layer_ok bottom_no_outputs
           bottom_no_outputs false state3 (fresh SparseLlamaModifierPyTorch)
           (RuntimeError outputs_missing) llama3_failed).
  vm_compute. reflexivity.
Defined.

Lemma on_finalize_effect_witness :
  true = true /\
  exists tm payload,
    model (self llama3_run) = Torch tm /\
    finalization_kwargs_ (self llama3_run) = Some payload /\
    snd (on_finalize llama3_run) =
      {| self :=
           with_model
             (Torch {| weights := weights tm;
                       observers := repeat false (length (observers tm));
                       use_cache := default (PyBool false) (payload !! "use_cache") |})
             (self llama3_run);
         trace := trace llama3_run |}.
Proof.
  apply (on_finalize_only_touches_observers_and_cache llama3_run true
           (snd (on_finalize llama3_run))).
  vm_compute. reflexivity.
Defined.

Lemma on_finalize_uninitialised_witness :
  fresh SparseLlamaModifierPyTorch = fresh SparseLlamaModifierPyTorch /\
  (exists msg, AttributeError "'NoneType' object has no attribute 'get'" = AttributeError msg) /\
  (finalization_kwargs_ (self (fresh SparseLlamaModifierPyTorch)) = None \/
   forall tm, model (self (fresh SparseLlamaModifierPyTorch)) <> Torch tm).
Proof.
  apply (on_finalize_raises_only_when_uninitialised (fresh SparseLlamaModifierPyTorch)
           (AttributeError "'NoneType' object has no attribute 'get'")
           (fresh SparseLlamaModifierPyTorch)).
  reflexivity.
Defined.


End OBCQ_Extra.

(** * More facts about the per-layer distillation modifier *)
Module PerLayer_Extra.
Import PerLayer PerLayer_Facts.

Local Open Scope list_scope.

(** Induction over a module tree. *)
Lemma TorchModule_rect' (P : TorchModule -> Prop) :
  (forall ty cs, Forall (fun p => P (snd p)) cs -> P (Mod ty cs)) ->
  forall m, P m.
Proof.
  intros H. fix IH 1. intros [ty cs]. apply H.
  induction cs as [|[n c] cs IHcs]; constructor; [apply IH | exact IHcs].
Qed.

Lemma named_modules_unfold ty cs name :
  named_modules (Mod ty cs) name =
    (name, Mod ty cs) ::
    flat_map (fun p => named_modules (snd p) (child_name name (fst p))) cs.
Proof.
  simpl. f_equal. induction cs as [|[n c] cs IH]; [done|]. simpl. by rewrite IH.
Qed.

Lemma find_layers_by_type_unfold ty cs cached name :
  _find_layers_by_type (Mod ty cs) cached name =
    List.fold_left
      (fun c p => _find_layers_by_type (snd p) c (child_name name (fst p))) cs
      (if is_distillation_type ty then dict_set name (Mod ty cs) cached else cached).
Proof.
  simpl. generalize (if is_distillation_type ty
                     then dict_set name (Mod ty cs) cached else cached).
  induction cs as [|[n c] cs IH]; intros d; [done|]. simpl. apply IH.
Qed.

Lemma find_layers_by_name_unfold ty cs layer_names cached name :
  _find_layers_by_name (Mod ty cs) layer_names cached name =
    List.fold_left
      (fun c p => _find_layers_by_name (snd p) layer_names c (child_name name (fst p))) cs
      (if bool_decide (name ∈ layer_names)
       then dict_set name (Mod ty cs) cached else cached).
Proof.
  simpl. generalize (if bool_decide (name ∈ layer_names)
                     then dict_set name (Mod ty cs) cached else cached).
  induction cs as [|[n c] cs IH]; intros d; [done|]. simpl. apply IH.
Qed.

Lemma dict_set_all_app {V} (l1 l2 : list (string * V)) d :
  dict_set_all (l1 ++ l2) d = dict_set_all l2 (dict_set_all l1 d).
Proof. apply fold_left_app. Qed.

Section Traversal.

Variable keep : string * TorchModule -> bool.
Variable find : TorchModule -> list (string * TorchModule) -> string ->
                list (string * TorchModule).
Hypothesis find_unfold : forall ty cs cached name,
  find (Mod ty cs) cached name =
    List.fold_left (fun c p => find (snd p) c (child_name name (fst p))) cs
      (if keep (name, Mod ty cs) then dict_set name (Mod ty cs) cached else cached).

Lemma find_is_filtered_named_modules m : forall cached name,
  find m cached name = dict_set_all (List.filter keep (named_modules m name)) cached.
Proof.
  induction m as [ty cs IH] using TorchModule_rect'. intros cached name.
  rewrite find_unfold, named_modules_unfold. simpl.
  assert (forall d,
    List.fold_left (fun c p => find (snd p) c (child_name name (fst p))) cs d =
    dict_set_all
      (List.filter keep
         (flat_map (fun p => named_modules (snd p) (child_name name (fst p))) cs)) d)
    as Hcs.
  { induction IH as [|[n c] cs Hc _ IHcs]; intros d; [done|]. simpl.
    rewrite List.filter_app, dict_set_all_app, <- (Hc d). apply IHcs. }
  rewrite Hcs. by destruct (keep (name, Mod ty cs)).
Qed.

End Traversal.


Lemma dict_set_fresh {V} (k : string) (v : V) (d : list (string * V)) :
  k ∉ List.map fst d -> dict_set k v d = d ++ [(k, v)].
Proof.
  induction d as [|[k' v'] d IH]; intros Hk; [done|]. simpl in *.
  apply not_elem_of_cons in Hk as [Hne Hk].
  destruct (String.eqb k k') eqn:E; [apply String.eqb_eq in E; congruence|].
  by rewrite IH.
Qed.

Lemma dict_set_all_nodup {V} (items d : list (string * V)) :
  NoDup (List.map fst d ++ List.map fst items) -> dict_set_all items d = d ++ items.
Proof.
  revert d. induction items as [|[k v] items IH]; intros d Hnd.
  - by rewrite app_nil_r.
  - change (dict_set_all ((k, v) :: items) d) with (dict_set_all items (dict_set k v d)).
    simpl in Hnd. pose proof Hnd as Hnd'. apply NoDup_app in Hnd' as (_ & Hdisj & _).
    rewrite dict_set_fresh.
    + rewrite IH; [by rewrite <- app_assoc|].
      rewrite List.map_app. simpl. by rewrite <- app_assoc.
    + intros Hin. apply (Hdisj k Hin). by left.
Qed.

Lemma NoDup_keys_filter {V} (f : string * V -> bool) (l : list (string * V)) :
  NoDup (List.map fst l) -> NoDup (List.map fst (List.filter f l)).
Proof.
  induction l as [|p l IH]; [done|]. simpl. intros Hnd.
  apply NoDup_cons in Hnd as [Hp Hnd]. destruct (f p); [|by apply IH].
  simpl. apply NoDup_cons. split; [|by apply IH].
  intros Hin. apply Hp. clear -Hin.
  induction l as [|q l IH]; [done|]. simpl in *.
  destruct (f q); simpl in *.
  - apply elem_of_cons in Hin as [->|Hin]; [by left | right; by apply IH].
  - right. by apply IH.
Qed.

(** X13. Discovery by type is the depth-first, parents-first walk of
    [named_modules] restricted to convolution and linear modules: each such
    module is cached under its dotted path, in walk order. When the paths of
    the tree are distinct the cache built from scratch is exactly that
    filtered listing. *)
Theorem discovery_by_type_follows_named_modules m cached name :
  _find_layers_by_type m cached name =
    dict_set_all
      (List.filter (fun p => is_distillation_type (module_type (snd p)))
         (named_modules m name)) cached /\
  (NoDup (List.map fst (named_modules m "")) ->
   _find_layers_by_type m [] "" =
     List.filter (fun p => is_distillation_type (module_type (snd p)))
       (named_modules m "")).
Proof.
  assert (forall m cached name,
            _find_layers_by_type m cached name =
              dict_set_all
                (List.filter (fun p => is_distillation_type (module_type (snd p)))
                   (named_modules m name)) cached) as Hgen.
  { intros m0. apply find_is_filtered_named_modules.
    intros ty cs c nm. apply find_layers_by_type_unfold. }
  split; [apply Hgen|]. intros Hnd. rewrite Hgen.
  rewrite dict_set_all_nodup; [done|]. simpl. by apply NoDup_keys_filter.
Qed.

(** X14. Discovery by name is the same walk restricted to the modules whose
    dotted path occurs in [layer_names]: listed names that are no path of
    the tree are dropped without an error, and the cache follows the order
    of the walk, not the order of [layer_names]. *)
Theorem discovery_by_name_follows_named_modules m layer_names cached name :
  _find_layers_by_name m layer_names cached name =
    dict_set_all
      (List.filter (fun p => bool_decide (fst p ∈ layer_names)) (named_modules m name))
      cached /\
  (NoDup (List.map fst (named_modules m "")) ->
   _find_layers_by_name m layer_names [] "" =
     List.filter (fun p => bool_decide (fst p ∈ layer_names)) (named_modules m "")).
Proof.
  assert (forall m cached name,
            _find_layers_by_name m layer_names cached name =
              dict_set_all
                (List.filter (fun p => bool_decide (fst p ∈ layer_names))
                   (named_modules m name)) cached) as Hgen.
  { intros m0. apply (find_is_filtered_named_modules
                        (fun p => bool_decide (fst p ∈ layer_names))
                        (fun m c n => _find_layers_by_name m layer_names c n)).
    intros ty cs c nm. apply find_layers_by_name_unfold. }
  split; [apply Hgen|]. intros Hnd. rewrite Hgen.
  rewrite dict_set_all_nodup; [done|]. simpl. by apply NoDup_keys_filter.
Qed.


Lemma hook_registrations_cons side name names o s first :
  hook_registrations side (name :: names) o s first =
    (first,
     {| reg_side := side; reg_path := name;
        reg_hook := _create_cache_output_hook name o s |})
    :: hook_registrations side names o s (S first).
Proof.
  unfold hook_registrations. simpl. rewrite Nat.add_0_r. f_equal.
  apply imap_ext. intros i x _. simpl. f_equal. lia.
Qed.

Lemma hook_registrations_ids side names o s first :
  List.map fst (hook_registrations side names o s first) = seq first (length names).
Proof.
  revert first. induction names as [|name names IH]; intros first; [done|].
  rewrite hook_registrations_cons. simpl. by rewrite IH.
Qed.

Section Methods.

Context {BaseState : Type}.
Variable super_initialize : BaseState -> TorchModule -> teacher_arg -> result BaseState.
Variable super_finalize : BaseState -> option TorchModule -> bool -> result BaseState.

(** The registration loop: one hook per name, every handle appended to
    [_student_handles]. *)
Lemma register_hooks_result side names o s (st : Store BaseState) hs :
  _student_handles (self st) = Some hs ->
  register_hooks side names o s st =
    (Ok tt,
     {| self := with_handles (Some (hs ++ seq (next_id (world st)) (length names)))
                  (_teacher_handles (self st)) (self st);
        world := {| output_dicts := output_dicts (world st);
                    shape_dicts := shape_dicts (world st);
                    forward_hooks :=
                      forward_hooks (world st) ++
                      hook_registrations side names o s (next_id (world st));
                    next_id := next_id (world st) + length names |} |}).
Proof.
  revert st hs. induction names as [|name names IH]; intros st hs Hhs.
  - simpl. unfold ret. destruct st as [sf w]. destruct sf, w. simpl in *. subst.
    by rewrite !app_nil_r, Nat.add_0_r.
  - simpl. unfold bind at 1. unfold register_forward_hook at 1. simpl.
    unfold bind at 1. unfold append_student_handle, bind, get_self, update_self at 1.
    simpl. rewrite Hhs. unfold update_self. simpl.
    erewrite IH; [|reflexivity]. simpl.
    rewrite hook_registrations_cons, <- !app_assoc. simpl.
    repeat f_equal. lia.
Qed.


(** [initialize] with a teacher module, once the base initialiser has
    returned, always returns and leaves the store [initialized]. *)
Lemma initialize_result module teacher (st : Store BaseState) b :
  super_initialize (base (self st)) module (TeacherModule teacher) = Ok b ->
  initialize super_initialize module (TeacherModule teacher) st =
    (Ok tt, initialized b module teacher st).
Proof.
  intros Hsuper. destruct st as [sf w].
  destruct sf as [b0 g nz sn tn pf pfrom cso cto sh th pr sso sto tch].
  destruct w as [od sd fh n]. cbn in Hsuper.
  unfold initialized, discovered_layers, teacher_names, student_names.
  cbn [self world base next_id _student_names _teacher_names _gain _normalize
       _project_features _project_from _projection output_dicts shape_dicts
       forward_hooks].
  unfold initialize.
  unfold bind at 1. unfold get_self at 1. cbn [self base].
  unfold bind at 1. unfold lift at 1. rewrite Hsuper.
  cbn -[hook_registrations register_hooks seq].
  destruct sn as [names|]; [destruct tn as [tnames|]|];
    cbn -[hook_registrations register_hooks seq];
    (unfold bind at 1; erewrite register_hooks_result; [|reflexivity];
     cbn -[hook_registrations register_hooks seq];
     unfold bind at 1; erewrite register_hooks_result; [|reflexivity];
     cbn -[hook_registrations register_hooks seq];
     rewrite !length_map, seq_app, <- app_assoc; reflexivity).
Qed.

Lemma initialize_ok_inv module teacher (st st' : Store BaseState) :
  initialize super_initialize module (TeacherModule teacher) st = (Ok tt, st') ->
  exists b,
    super_initialize (base (self st)) module (TeacherModule teacher) = Ok b /\
    st' = initialized b module teacher st.
Proof.
  intros Hinit.
  destruct (super_initialize (base (self st)) module (TeacherModule teacher))
    as [b|e] eqn:Hsuper.
  - rewrite (initialize_result _ _ _ _ Hsuper) in Hinit.
    apply (f_equal snd) in Hinit. exists b. split; [reflexivity|].
    symmetry. exact Hinit.
  - exfalso. unfold initialize in Hinit.
    unfold bind at 1 in Hinit. unfold get_self at 1 in Hinit. cbv beta iota in Hinit.
    unfold bind at 1 in Hinit. unfold lift at 1 in Hinit. rewrite Hsuper in Hinit.
    discriminate Hinit.
Qed.

(** X15. [initialize] with a teacher module registers one forward hook per
    discovered student layer and then one per discovered teacher layer,
    in discovery order. All their handles, those of the teacher's hooks
    included, are appended to [_student_handles]; [_teacher_handles] is left
    the empty list. *)
Theorem initialize_puts_every_handle_in_student_handles
    module teacher (st st' : Store BaseState) :
  initialize super_initialize module (TeacherModule teacher) st = (Ok tt, st') ->
  exists so to ss ts first,
    _cached_student_output (self st') = Some so /\
    _cached_teacher_output (self st') = Some to /\
    _student_output_shapes (self st') = Some ss /\
    _teacher_output_shapes (self st') = Some ts /\
    forward_hooks (world st') =
      forward_hooks (world st) ++
      hook_registrations Student
        (List.map fst (fst (discovered_layers (self st) module teacher))) so ss first ++
      hook_registrations Teacher
        (List.map fst (snd (discovered_layers (self st) module teacher))) to ts
        (first + length (fst (discovered_layers (self st) module teacher))) /\
    _student_handles (self st') =
      Some (seq first
              (length (fst (discovered_layers (self st) module teacher)) +
               length (snd (discovered_layers (self st) module teacher)))) /\
    _teacher_handles (self st') = Some [].
Proof.
  intros Hinit. apply initialize_ok_inv in Hinit as (b & _ & ->).
  exists (next_id (world st)), (S (next_id (world st))), (S (S (next_id (world st)))),
    (S (S (S (next_id (world st))))), (S (S (S (S (next_id (world st)))))).
  unfold initialized.
  cbn [self world _cached_student_output _cached_teacher_output _student_output_shapes
       _teacher_output_shapes forward_hooks _student_handles _teacher_handles].
  rewrite !length_map. repeat (split; [reflexivity|]). reflexivity.
Qed.










Variable _initialize_projection : M (Store BaseState) unit.
Variable apply_projection : nat -> Tensor -> result Tensor.









(** X20. Right after [initialize], before any forward pass,
    [compute_distillation_loss] (without projection) raises [KeyError] for
    the first student name: the caches are fresh and empty. *)
Theorem loss_before_any_forward_is_a_key_error
    module teacher (st st1 : Store BaseState) name rest :
  initialize super_initialize module (TeacherModule teacher) st = (Ok tt, st1) ->
  student_names (self st1) = Some (name :: rest) ->
  project_features (self st) = false ->
  compute_distillation_loss _initialize_projection apply_projection st1 =
    (Raise (KeyError name), st1).
Proof.
  intros Hinit Hnames Hproj.
  apply initialize_ok_inv in Hinit as (b & _ & ->).
  set (st1 := initialized b module teacher st) in *.
  assert (project_features (self st1) = false) as Hproj1 by exact Hproj.
  assert (_cached_student_output (self st1) = Some (next_id (world st))) as Hcache
    by reflexivity.
  assert (output_dicts (world st1) !! next_id (world st) = Some ∅) as Hdict.
  { unfold st1, initialized. cbn [world output_dicts].
    rewrite lookup_insert_ne by lia. apply lookup_insert_eq. }
  clearbody st1.
  unfold compute_distillation_loss.
  unfold bind at 1. unfold get_self at 1. cbv beta iota. rewrite Hproj1.
  cbn [andb]. unfold bind at 1. unfold ret at 1. cbv beta iota.
  unfold bind at 1. unfold get_self at 1. cbv beta iota. rewrite Hnames.
  cbn [length seq distillation_loop].
  unfold bind at 1. unfold distillation_step.
  unfold bind at 1. unfold get_self at 1. cbv beta iota. rewrite Hnames.
  unfold bind at 1. unfold subscript_names at 1. cbn [lookup list_lookup].
  unfold ret at 1. cbv beta iota.
  unfold bind at 1. rewrite Hcache. unfold subscript_outputs at 1.
  unfold bind at 1. unfold get_world at 1. cbv beta iota. rewrite Hdict.
  unfold default. cbn [from_option id]. rewrite lookup_empty. reflexivity.
Qed.


Lemma subscript_outputs_some (st : Store BaseState) r key t :
  cached_output (world st) r key = Some t ->
  subscript_outputs (Some r) key st = (Ok t, st).
Proof.
  unfold cached_output, subscript_outputs, bind, get_world. simpl.
  destruct (output_dicts (world st) !! r) as [d|]; [|discriminate]. simpl.
  by intros ->.
Qed.

Lemma subscript_names_some (st : Store BaseState) names i name :
  names !! i = Some name -> subscript_names (Some names) i st = (Ok name, st).
Proof. unfold subscript_names. by intros ->. Qed.

Lemma output_difference_same_shape normalize s t :
  shape s = shape t -> exists d, output_difference normalize s t = Ok d.
Proof.
  intros Hshape. unfold output_difference, tensor_sub.
  destruct (decide _) as [_|]; [|done]. destruct normalize; eauto.
Qed.

(** One iteration over a captured pair of one shape returns and adds its
    term. *)
Lemma distillation_step_ok (st : Store BaseState) i acc sn tn rs rt sname tname s t :
  project_features (self st) = false ->
  student_names (self st) = Some sn ->
  teacher_names (self st) = Some tn ->
  _cached_student_output (self st) = Some rs ->
  _cached_teacher_output (self st) = Some rt ->
  sn !! i = Some sname -> tn !! i = Some tname ->
  cached_output (world st) rs sname = Some s ->
  cached_output (world st) rt tname = Some t ->
  shape s = shape t ->
  exists d, distillation_step apply_projection i acc st = (Ok (acc + d)%float, st).
Proof.
  intros Hproj Hsn Htn Hrs Hrt Hi Hj Hs Ht Hshape.
  destruct (output_difference_same_shape (normalize (self st)) s t Hshape) as [d Hd].
  exists d. unfold distillation_step.
  unfold bind at 1. unfold get_self at 1. cbv beta iota.
  rewrite Hsn, Htn, Hrs, Hrt, Hproj.
  unfold bind at 1. rewrite (subscript_names_some st sn i sname Hi).
  unfold bind at 1. rewrite (subscript_outputs_some st rs sname s Hs).
  unfold bind at 1. rewrite (subscript_names_some st tn i tname Hj).
  unfold bind at 1. rewrite (subscript_outputs_some st rt tname t Ht).
  unfold bind at 1. unfold ret at 1. cbv beta iota.
  unfold bind at 1. unfold lift at 1. rewrite Hd. reflexivity.
Qed.

(** X21. The two name lists are indexed in lockstep without a length check:
    when the teacher list is shorter than the student list and every pair
    before its end is captured with matching shapes,
    [compute_distillation_loss] raises [IndexError] at the first student
    layer that has no teacher partner. *)
Theorem shorter_teacher_list_is_an_index_error (st : Store BaseState) sn tn rs rt :
  project_features (self st) = false ->
  student_names (self st) = Some sn ->
  teacher_names (self st) = Some tn ->
  _cached_student_output (self st) = Some rs ->
  _cached_teacher_output (self st) = Some rt ->
  length tn < length sn ->
  (forall i sname, i <= length tn -> sn !! i = Some sname ->
     is_Some (cached_output (world st) rs sname)) ->
  (forall i sname tname s, sn !! i = Some sname -> tn !! i = Some tname ->
     cached_output (world st) rs sname = Some s ->
     exists t, cached_output (world st) rt tname = Some t /\ shape s = shape t) ->
  compute_distillation_loss _initialize_projection apply_projection st =
    (Raise (IndexError "list index out of range"), st).
Proof.
  intros Hproj Hsn Htn Hrs Hrt Hlen Hstudent Hteacher.
  unfold compute_distillation_loss.
  unfold bind at 1. unfold get_self at 1. cbv beta iota. rewrite Hproj.
  cbn [andb]. unfold bind at 1. unfold ret at 1. cbv beta iota.
  unfold bind at 1. unfold get_self at 1. cbv beta iota. rewrite Hsn.
  assert (forall k i acc, i + k = length sn -> i <= length tn ->
            distillation_loop apply_projection (seq i k) acc st =
              (Raise (IndexError "list index out of range"), st)) as Hloop.
  { induction k as [|k IH]; intros i acc Hik Hi; [lia|].
    cbn [seq distillation_loop]. unfold bind at 1.
    destruct (lookup_lt_is_Some_2 sn i ltac:(lia)) as [sname Hsname].
    destruct (Hstudent i sname Hi Hsname) as [s Hs].
    destruct (decide (i = length tn)) as [->|Hne].
    - unfold distillation_step.
      unfold bind at 1. unfold get_self at 1. cbv beta iota.
      rewrite Hsn, Htn, Hrs.
      unfold bind at 1. rewrite (subscript_names_some st sn _ sname Hsname).
      unfold bind at 1. rewrite (subscript_outputs_some st rs sname s Hs).
      unfold bind at 1. unfold subscript_names at 1.
      rewrite (lookup_ge_None_2 tn (length tn)) by lia. reflexivity.
    - destruct (lookup_lt_is_Some_2 tn i ltac:(lia)) as [tname Htname].
      destruct (Hteacher i sname tname s Hsname Htname Hs) as (t & Ht & Hshape).
      destruct (distillation_step_ok st i acc sn tn rs rt sname tname s t
                  Hproj Hsn Htn Hrs Hrt Hsname Htname Hs Ht Hshape) as [d ->].
      apply IH; lia. }
  apply Hloop; lia.
Qed.

End Methods.

(** *** Forward passes through the registered hooks *)



Lemma forward_hooks_run_hook h out w : forward_hooks (run_hook h out w) = forward_hooks w.
Proof. reflexivity. Qed.





Section Wiring.

Context {BaseState : Type}.
Variable super_initialize : BaseState -> TorchModule -> teacher_arg -> result BaseState.


End Wiring.

Import Examples Examples2.

Lemma initialize_handles_witness :
  exists so to ss ts first,
    _cached_student_output (self distill1) = Some so /\
    _cached_teacher_output (self distill1) = Some to /\
    _student_output_shapes (self distill1) = Some ss /\
    _teacher_output_shapes (self distill1) = Some ts /\
    forward_hooks (world distill1) =
      forward_hooks (world distill0) ++
      hook_registrations Student
        (List.map fst (fst (discovered_layers (self distill0) net net))) so ss first ++
      hook_registrations Teacher
        (List.map fst (snd (discovered_layers (self distill0) net net))) to ts
        (first + length (fst (discovered_layers (self distill0) net net))) /\
    _student_handles (self distill1) =
      Some (seq first
              (length (fst (discovered_layers (self distill0) net net)) +
               length (snd (discovered_layers (self distill0) net net)))) /\
    _teacher_handles (self distill1) = Some [].
Proof.
  apply (initialize_puts_every_handle_in_student_handles super_initialize_ok net net
           distill0 distill1).
  vm_compute. reflexivity.
Defined.





Lemma loss_before_forward_witness :
  compute_distillation_loss no_projection_init no_projection distill1 =
    (Raise (KeyError "fc"), distill1).
Proof.
  apply (loss_before_any_forward_is_a_key_error super_initialize_ok no_projection_init
           no_projection net net distill0 distill1 "fc" []); vm_compute; reflexivity.
Defined.

Lemma shorter_teacher_list_witness :
  compute_distillation_loss no_projection_init no_projection mismatch2 =
    (Raise (IndexError "list index out of range"), mismatch2).
Proof.
  apply (shorter_teacher_list_is_an_index_error no_projection_init no_projection mismatch2
           ["features.0"; "classifier"] ["fc"] 0 1).
  - vm_compute. reflexivity.
  - vm_compute. reflexivity.
  - vm_compute. reflexivity.
  - vm_compute. reflexivity.
  - vm_compute. reflexivity.
  - simpl. lia.
  - intros [|[|i]] sname Hi [= <-]; try (simpl in Hi; lia);
      vm_compute; eauto.
  - intros [|[|i]] sname tname s [= <-] [= <-].
    vm_compute. intros [= <-]. eexists. split; reflexivity.
Defined.


End PerLayer_Extra.
